(** * Learning Thermostat: feature encoding, model manager and controller

    A shallow embedding of [ml_core.py], [data_collector.py], [climate.py]
    and [utils.py].  Python objects become records, [dict]s become ordered
    association lists with Python's assignment semantics, a call that may
    raise returns a [pyresult], and the [World] an operation runs in holds
    the state machine it reads, the training file it appends to, and the
    calls it makes to the actuator service and to the model manager. *)

From Stdlib Require Import ZArith List String Ascii Bool Lia.
Import ListNotations.
Open Scope string_scope.
Open Scope list_scope.
Open Scope Z_scope.

(** ** Python call outcomes *)

Inductive exn : Type :=
| AttributeError (cls attr : string)
| IndexError (msg : string)
| ValueError (msg : string)
| KeyError (key : string)
| TypeError (msg : string)
| OSError (msg : string).

Inductive pyresult (A : Type) : Type :=
| Return (a : A)
| Raise (e : exn).
Arguments Return {A} a.
Arguments Raise {A} e.

Definition bind {A B : Type} (m : pyresult A) (k : A -> pyresult B) : pyresult B :=
  match m with
  | Return a => k a
  | Raise e => Raise e
  end.

Notation "x <- m ;; k" := (bind m (fun x => k))
  (at level 61, m at next level, right associativity).

(** ** [datetime] and [timedelta]

    A naive [datetime] is the number of microseconds since
    1970-01-01T00:00:00 (a Thursday); a [timedelta] is a number of
    microseconds.  [+] and [<] on them are those of [Z]. *)

Definition datetime := Z.
Definition timedelta := Z.

Definition timedelta_minutes (m : Z) : timedelta := m * 60 * 1000000.

Definition dt_hour (t : datetime) : Z := (t / 3600000000) mod 24.
Definition dt_minute (t : datetime) : Z := (t / 60000000) mod 60.
Definition dt_second (t : datetime) : Z := (t / 1000000) mod 60.
(** Monday is 0 and Sunday is 6, as [Timestamp.dayofweek] and
    [datetime.weekday()] count. *)
Definition dt_weekday (t : datetime) : Z := (t / 86400000000 + 3) mod 7.

(** [hour * 3600 + minute * 60 + second] *)
Definition seconds_from_midnight (t : datetime) : Z :=
  dt_hour t * 3600 + dt_minute t * 60 + dt_second t.

(** The attributes the source reads from a point in time. *)
Inductive time_attr : Type := hour | minute | second | dayofweek.

(** [df['timestamp'].dt.<attr>]: the pandas accessor has all four. *)
Definition Series_dt (ts : datetime) (a : time_attr) : pyresult Z :=
  match a with
  | hour => Return (dt_hour ts)
  | minute => Return (dt_minute ts)
  | second => Return (dt_second ts)
  | dayofweek => Return (dt_weekday ts)
  end.

(** [now.<attr>] for [now = datetime.now()], an instance of the standard
    library's [datetime.datetime]: it has [hour], [minute] and [second]
    (and the methods [weekday()] and [isoweekday()]), but no attribute named
    [dayofweek], so that access raises [AttributeError]. *)
Definition datetime_getattr (now : datetime) (a : time_attr) : pyresult Z :=
  match a with
  | hour => Return (dt_hour now)
  | minute => Return (dt_minute now)
  | second => Return (dt_second now)
  | dayofweek => Raise (AttributeError "datetime.datetime" "dayofweek")
  end.

(** ** [utils.py] *)

Definition replace_char (old new : ascii) (c : ascii) : ascii :=
  if Ascii.eqb c old then new else c.

Fixpoint str_replace_char (old new : ascii) (s : string) : string :=
  match s with
  | EmptyString => EmptyString
  | String c s' => String (replace_char old new c) (str_replace_char old new s')
  end.

(** [entity_id.replace(".", "_")] *)
Definition sanitize_entity_id_for_feature (entity_id : string) : string :=
  str_replace_char "."%char "_"%char entity_id.

(** ** Python dicts: insertion-ordered, assignment overwrites in place *)

Section Dict.
Context {V : Type}.

Definition dict := list (string * V).

Fixpoint dict_get (d : dict) (k : string) : option V :=
  match d with
  | [] => None
  | (k', v) :: d' => if String.eqb k' k then Some v else dict_get d' k
  end.

(** [d[k] = v] *)
Fixpoint dict_set (d : dict) (k : string) (v : V) : dict :=
  match d with
  | [] => [(k, v)]
  | (k', v') :: d' =>
      if String.eqb k' k then (k', v) :: d' else (k', v') :: dict_set d' k v
  end.
End Dict.
Arguments dict V : clear implicits.

(** ** Values and numeric primitives

    Python floats are kept abstract: the source only stores, compares,
    rounds and forwards them, and feeds them to numpy and scikit-learn. *)

Class Numeric (float : Type) : Type := {
  float_of_int : Z -> float;
  fmul : float -> float -> float;
  fdiv : float -> float -> float;
  np_pi : float;
  np_sin : float -> float;
  np_cos : float -> float;
  (** [x == y] *)
  float_eqb : float -> float -> bool;
  (** [round(x, 1)] *)
  round1 : float -> float
}.

Inductive pyval (float : Type) : Type :=
| PyStr (s : string)
| PyInt (z : Z)
| PyFloat (x : float)
(** the string [t.isoformat()] *)
| PyIso (t : datetime).
Arguments PyStr {float} s.
Arguments PyInt {float} z.
Arguments PyFloat {float} x.
Arguments PyIso {float} t.

(** A row of a [DataFrame], and the dict the collector writes: column name
    to value, in column order. *)
Definition row (float : Type) := dict (pyval float).

(** The scikit-learn pipeline object, its constructor and its two methods.
    [Pipeline_new num cat] is the unfitted
    [Pipeline([ColumnTransformer(passthrough on num, OneHotEncoder on cat),
    RandomForestRegressor(n_estimators=100, random_state=42)])]. *)
Class Sklearn (float Pipeline : Type) : Type := {
  Pipeline_new : list string -> list string -> Pipeline;
  Pipeline_fit : Pipeline -> list (row float) -> list float -> pyresult Pipeline;
  Pipeline_predict : Pipeline -> list (row float) -> pyresult (list float)
}.

(** ** Logging *)

Inductive level : Type := INFO | WARNING | ERROR.

(** A log record: level, format string and, where the source passes one,
    the exception (other format arguments are left out). *)
Inductive log_record : Type :=
| Log (l : level) (fmt : string)
| LogExn (l : level) (fmt : string) (e : exn).

(** ** Home Assistant constants *)

(** Modelled from the spec: the two states a sensor or the actuator reports
    when it has no value, [homeassistant.const.STATE_UNAVAILABLE] and
    [STATE_UNKNOWN] ("may be unavailable/unknown"). *)
Definition STATE_UNAVAILABLE : string := "unavailable".
Definition STATE_UNKNOWN : string := "unknown".

(** The other constants the source imports from Home Assistant; only their
    being equal or different matters below. *)
Definition ATTR_TEMPERATURE : string := "temperature".
Definition HVAC_MODE_OFF : string := "off".
Definition HVAC_MODE_AUTO : string := "auto".

Definition PRESET_CONTROLLING : string := "Controlling".
Definition PRESET_LEARNING_CONTROLLING : string := "Learning & Controlling".
Definition PRESETS : list string := [PRESET_CONTROLLING; PRESET_LEARNING_CONTROLLING].

Fixpoint str_in (s : string) (l : list string) : bool :=
  match l with
  | [] => false
  | x :: l' => String.eqb s x || str_in s l'
  end.

Section Engine.
Context {float Pipeline : Type} `{Numeric float} `{Sklearn float Pipeline}.

(** *** The host: state machine, training file, calls made *)

(** A state object: the state string and the numeric attributes
    ([attributes.get] returns [None] for a key that is absent). *)
Record HAState : Type := {
  state : string;
  attributes : dict float
}.

Inductive call : Type :=
(** [hass.services.async_call("climate", "set_temperature", ...)] *)
| CallSetTemperature (entity_id : string) (temperature : float)
(** [self._ml_core.async_predict_temperature(sensor_data)] *)
| CallPredict (sensor_data : row float)
(** [self.async_write_ha_state()] *)
| CallWriteHaState.

Record World : Type := {
  (** the state machine [hass.states], entity id to state object *)
  states : dict HAState;
  (** the data rows of the training CSV file *)
  csv : list (row float);
  (** the error, if any, that opening the CSV file for appending raises *)
  csv_fault : option exn;
  calls : list call;
  log : list log_record
}.

Definition add_call (w : World) (c : call) : World :=
  {| states := states w; csv := csv w; csv_fault := csv_fault w;
     calls := calls w ++ [c]; log := log w |}.

Definition add_log (w : World) (r : log_record) : World :=
  {| states := states w; csv := csv w; csv_fault := csv_fault w;
     calls := calls w; log := log w ++ [r] |}.

(** [hass.states.get(entity_id)] *)
Definition states_get (w : World) (entity_id : string) : option HAState :=
  dict_get (states w) entity_id.

(** [state.state if state else "unknown"] *)
Definition state_or_unknown (st : option HAState) : string :=
  match st with
  | Some s => state s
  | None => "unknown"
  end.

(** *** [ml_core.py] *)

Record MLCore : Type := {
  model : option Pipeline;
  is_trained : bool
}.

(** What [joblib.load] finds at the model path.  The file is written by
    [joblib.dump(self.model, ...)] only, so a load that succeeds yields a
    pipeline object. *)
Inductive model_file : Type :=
| ModelAbsent
| ModelUnreadable (e : exn)
| ModelStored (p : Pipeline).

Definition _load_model (self : MLCore) (f : model_file)
  : MLCore * list log_record :=
  match f with
  | ModelStored p =>
      ({| model := Some p; is_trained := true |},
       [Log INFO "Successfully loaded pre-trained model."])
  | ModelUnreadable e => (self, [LogExn ERROR "Error loading model: %s" e])
  | ModelAbsent => (self, [Log INFO "No pre-trained model found. Waiting for training."])
  end.

Definition MLCore_init (f : model_file) : MLCore * list log_record :=
  _load_model {| model := None; is_trained := false |} f.

(** A record of the frame [pd.read_csv] returns: the columns of the
    header the collector writes.  [timestamp] is what
    [pd.to_datetime(df['timestamp'])] makes of the record's cell: the
    instant, or the exception that line raises on it (a cell that does not
    parse or lies outside the range of pandas' timestamps, or one whose
    format is not the one pandas settled on for the column, as when some
    rows were written at a whole second and have no fraction). *)
Record TrainingRecord : Type := {
  timestamp : pyresult datetime;
  features : row float;
  target_temperature : float
}.

(** What is at the data path.  [DataFrameLacking rows e] is a file that
    reads as a frame of [rows] rows without a column the training asks for
    (a file that was first written without its header, for one); [e] is the
    [KeyError] that raises. *)
Inductive data_file : Type :=
| DataAbsent
| DataUnreadable (e : exn)
| DataFrame (df : list TrainingRecord)
| DataFrameLacking (rows : nat) (e : exn).

Definition seconds_in_day : Z := 24 * 60 * 60.

(** [2 * np.pi * seconds_from_midnight / seconds_in_day] *)
Definition day_angle (seconds_from_midnight : Z) : float :=
  fdiv (fmul (fmul (float_of_int 2) np_pi) (float_of_int seconds_from_midnight))
       (float_of_int seconds_in_day).

(** The three derived columns as training computes them, from a record's
    timestamp through the pandas accessor. *)
Definition train_time_features (ts : datetime) : pyresult (float * float * Z) :=
  h <- Series_dt ts hour ;;
  m <- Series_dt ts minute ;;
  s <- Series_dt ts second ;;
  let seconds_from_midnight := h * 3600 + m * 60 + s in
  let time_sin := np_sin (day_angle seconds_from_midnight) in
  let time_cos := np_cos (day_angle seconds_from_midnight) in
  d <- Series_dt ts dayofweek ;;
  Return (time_sin, time_cos, d).

(** The three derived columns as prediction computes them, from
    [now = datetime.now()]. *)
Definition predict_time_features (now : datetime) : pyresult (float * float * Z) :=
  h <- datetime_getattr now hour ;;
  m <- datetime_getattr now minute ;;
  s <- datetime_getattr now second ;;
  let seconds_from_midnight := h * 3600 + m * 60 + s in
  let time_sin := np_sin (day_angle seconds_from_midnight) in
  let time_cos := np_cos (day_angle seconds_from_midnight) in
  d <- datetime_getattr now dayofweek ;;
  Return (time_sin, time_cos, d).

(** Adds the derived columns after the existing ones. *)
Definition with_time_columns (r : row float) (f : float * float * Z) : row float :=
  let '(time_sin, time_cos, d) := f in
  dict_set (dict_set (dict_set r "time_sin" (PyFloat time_sin))
                     "time_cos" (PyFloat time_cos))
           "day_of_week" (PyInt d).

(** One row of [X]: the record without [timestamp] and
    [target_temperature], with the derived columns; it raises what the
    conversion of the record's timestamp raises. *)
Definition X_row (r : TrainingRecord) : pyresult (row float) :=
  ts <- timestamp r ;;
  f <- train_time_features ts ;;
  Return (with_time_columns (features r) f).

Fixpoint mapM {A B : Type} (f : A -> pyresult B) (l : list A) : pyresult (list B) :=
  match l with
  | [] => Return []
  | a :: l' => b <- f a ;; bs <- mapM f l' ;; Return (b :: bs)
  end.

Definition is_object (v : pyval float) : bool :=
  match v with
  | PyStr _ | PyIso _ => true
  | PyInt _ | PyFloat _ => false
  end.

(** [X.select_dtypes(...).columns]: a column of a frame has one dtype, so
    its first cell decides. *)
Definition select_dtypes (p : pyval float -> bool) (X : list (row float)) : list string :=
  match X with
  | [] => []
  | r :: _ => map fst (filter (fun kv => p (snd kv)) r)
  end.

(** [_train_model_sync]: [f] is what is found at the data path and
    [dump] the outcome of [joblib.dump].  Only reading the file and saving
    the model are inside a [try]: what the feature engineering or the fit
    raises leaves the function. *)
Definition _train_model_sync (self : MLCore) (f : data_file) (dump : pyresult unit)
  : pyresult bool * MLCore * list log_record :=
  let l0 := [Log INFO "Starting model training..."] in
  match f with
  | DataAbsent =>
      (Return false, self, l0 ++ [Log WARNING "Data file not found. Cannot train model."])
  | DataUnreadable e =>
      (Return false, self, l0 ++ [LogExn ERROR "Error reading data file: %s" e])
  | DataFrame df =>
      if Nat.ltb (List.length df) 20 then
        (Return false, self, l0 ++ [Log INFO "Not enough data to train. Have %d, need 20."])
      else
        match mapM X_row df with
        | Raise e => (Raise e, self, l0)
        | Return X =>
            let y := map target_temperature df in
            let categorical_features := select_dtypes is_object X in
            let numerical_features := select_dtypes (fun v => negb (is_object v)) X in
            let p := Pipeline_new numerical_features categorical_features in
            match Pipeline_fit p X y with
            | Raise e =>
                (Raise e, {| model := Some p; is_trained := is_trained self |}, l0)
            | Return fitted =>
                let l1 := l0 ++ [Log INFO "Model training completed successfully."] in
                match dump with
                | Return _ =>
                    (Return true, {| model := Some fitted; is_trained := true |},
                     l1 ++ [Log INFO "Model saved to %s"])
                | Raise e =>
                    (Return false,
                     {| model := Some fitted; is_trained := is_trained self |},
                     l1 ++ [LogExn ERROR "Error saving model: %s" e])
                end
            end
        end
  | DataFrameLacking rows e =>
      if Nat.ltb rows 20 then
        (Return false, self, l0 ++ [Log INFO "Not enough data to train. Have %d, need 20."])
      else (Raise e, self, l0)
  end.

(** The body of the [try] block of [_predict_temperature_sync]. *)
Definition predict_body (self : MLCore) (sensor_data : row float) (now : datetime)
  : pyresult float :=
  let df := sensor_data in
  f <- predict_time_features now ;;
  let df := with_time_columns df f in
  prediction <- match model self with
                | Some p => Pipeline_predict p [df]
                | None => Raise (AttributeError "NoneType" "predict")
                end ;;
  match prediction with
  | x :: _ => Return x
  | [] => Raise (IndexError "index 0 is out of bounds")
  end.

(** [now] is what [datetime.now()] returns.  [None] is the failure
    result. *)
Definition _predict_temperature_sync (self : MLCore) (sensor_data : row float)
    (now : datetime) : pyresult (option float) * list log_record :=
  match predict_body self sensor_data now with
  | Return x => (Return (Some x), [Log INFO "Predicted temperature: %s"])
  | Raise e => (Return None, [LogExn ERROR "Error during prediction: %s" e])
  end.

Definition is_None {A : Type} (o : option A) : bool :=
  match o with
  | None => true
  | Some _ => false
  end.

(** The guard [not self.is_trained or self.model is None]. *)
Definition not_trained (self : MLCore) : bool :=
  negb (is_trained self) || is_None (model self).

Definition async_predict_temperature (self : MLCore) (sensor_data : row float)
    (now : datetime) : pyresult (option float) * list log_record :=
  if not_trained self then
    (Return None, [Log WARNING "Prediction requested, but model is not trained."])
  else _predict_temperature_sync self sensor_data now.

(** The invariant of the manager: a set flag comes with a model. *)
Definition trained_has_model (self : MLCore) : Prop :=
  is_trained self = true -> model self <> None.

(** The states of the model manager: built by [__init__], then changed by
    [_load_model] and [_train_model_sync] only (a prediction assigns no
    attribute), whatever the files hold and however a call ends. *)
Inductive reachable : MLCore -> Prop :=
| reachable_init (f : model_file) : reachable (fst (MLCore_init f))
| reachable_load (self : MLCore) (f : model_file) :
    reachable self -> reachable (fst (_load_model self f))
| reachable_train (self : MLCore) (f : data_file) (dump : pyresult unit) :
    reachable self -> reachable (snd (fst (_train_model_sync self f dump))).

(** *** [data_collector.py] *)

Record DataCollector : Type := {
  _climate_entity_id : string;
  _sensor_entity_ids : list string
}.

(** Set once in [__init__] and never assigned again. *)
Definition _feature_names (self : DataCollector) : list string :=
  map sanitize_entity_id_for_feature (_sensor_entity_ids self).

Definition _fieldnames (self : DataCollector) : list string :=
  ["timestamp"] ++ _feature_names self ++ ["target_temperature"].

(** [csv.DictWriter(fieldnames).writerow(data_row)]: one cell per field
    name, in order, empty where the dict has no such key. *)
Definition writerow (fieldnames : list string) (data_row : row float) : row float :=
  map (fun k => (k, match dict_get data_row k with
                    | Some v => v
                    | None => PyStr ""
                    end)) fieldnames.

Definition _write_to_csv (self : DataCollector) (w : World) (data_row : row float)
  : World :=
  match csv_fault w with
  | None =>
      {| states := states w;
         csv := csv w ++ [writerow (_fieldnames self) data_row];
         csv_fault := csv_fault w; calls := calls w; log := log w |}
  | Some e => add_log w (LogExn ERROR "Error writing to CSV file: %s" e)
  end.

(** The loop [for i, entity_id in enumerate(self._sensor_entity_ids)]. *)
Fixpoint collect_loop (w : World) (feature_names : list string) (i : nat)
    (entity_ids : list string) (data_row : row float) : pyresult (row float) :=
  match entity_ids with
  | [] => Return data_row
  | entity_id :: rest =>
      let st := states_get w entity_id in
      match nth_error feature_names i with
      | None => Raise (IndexError "list index out of range")
      | Some feature_name =>
          collect_loop w feature_names (S i) rest
            (dict_set data_row feature_name (PyStr (state_or_unknown st)))
      end
  end.

(** [now] is what [datetime.now()] returns. *)
Definition async_collect_data_point (self : DataCollector) (w : World)
    (target_temperature : float) (now : datetime) : pyresult unit * World :=
  let data_row := [("timestamp", PyIso now)] in
  match collect_loop w (_feature_names self) 0 (_sensor_entity_ids self) data_row with
  | Raise e => (Raise e, w)
  | Return data_row =>
      let data_row := dict_set data_row "target_temperature" (PyFloat target_temperature) in
      (Return tt, _write_to_csv self w data_row)
  end.

Record Event : Type := {
  old_state : option HAState;
  new_state : option HAState
}.

(** [old_temp != new_temp] on two results of [attributes.get]. *)
Definition py_ne (a b : option float) : bool :=
  match a, b with
  | None, None => false
  | Some x, Some y => negb (float_eqb x y)
  | _, _ => true
  end.

(** The listener on the actuator entity.  The task it creates is run at
    once; [now] is what [datetime.now()] returns in it. *)
Definition _async_handle_initial_learning_state_change (self : DataCollector)
    (w : World) (event : Event) (now : datetime) : pyresult unit * World :=
  match old_state event, new_state event with
  | Some o, Some n =>
      let old_temp := dict_get (attributes o) ATTR_TEMPERATURE in
      let new_temp := dict_get (attributes n) ATTR_TEMPERATURE in
      match new_temp with
      | Some t =>
          if py_ne old_temp new_temp then
            async_collect_data_point self
              (add_log w (Log INFO "Initial learning: Target temp for %s changed to %s. Collecting data."))
              t now
          else (Return tt, w)
      | None => (Return tt, w)
      end
  | _, _ => (Return tt, w)
  end.

(** *** [climate.py] *)

Record LearningThermostat : Type := {
  _target_climate_entity : string;
  _sensor_entities : list string;
  _data_collector : DataCollector;
  _override_duration : timedelta;
  _target_temperature : float;
  _hvac_mode : string;
  _preset_mode : string;
  _is_override_active : bool;
  _override_end_time : option datetime;
  (** whether the periodic tick is installed *)
  _prediction_task : bool
}.

Definition with_target (self : LearningThermostat) (t : float) : LearningThermostat :=
  {| _target_climate_entity := _target_climate_entity self;
     _sensor_entities := _sensor_entities self;
     _data_collector := _data_collector self;
     _override_duration := _override_duration self;
     _target_temperature := t;
     _hvac_mode := _hvac_mode self;
     _preset_mode := _preset_mode self;
     _is_override_active := _is_override_active self;
     _override_end_time := _override_end_time self;
     _prediction_task := _prediction_task self |}.

Definition with_override (self : LearningThermostat) (active : bool)
    (end_time : option datetime) : LearningThermostat :=
  {| _target_climate_entity := _target_climate_entity self;
     _sensor_entities := _sensor_entities self;
     _data_collector := _data_collector self;
     _override_duration := _override_duration self;
     _target_temperature := _target_temperature self;
     _hvac_mode := _hvac_mode self;
     _preset_mode := _preset_mode self;
     _is_override_active := active;
     _override_end_time := end_time;
     _prediction_task := _prediction_task self |}.

Definition with_modes (self : LearningThermostat) (hvac_mode preset_mode : string)
    (task : bool) : LearningThermostat :=
  {| _target_climate_entity := _target_climate_entity self;
     _sensor_entities := _sensor_entities self;
     _data_collector := _data_collector self;
     _override_duration := _override_duration self;
     _target_temperature := _target_temperature self;
     _hvac_mode := hvac_mode;
     _preset_mode := preset_mode;
     _is_override_active := _is_override_active self;
     _override_end_time := _override_end_time self;
     _prediction_task := task |}.

Definition _async_set_target_climate_temp (self : LearningThermostat) (w : World)
    (temperature : float) : World :=
  add_call w (CallSetTemperature (_target_climate_entity self) temperature).

Definition async_write_ha_state (w : World) : World := add_call w CallWriteHaState.

(** [async_set_temperature]: [temperature] is
    [kwargs.get(ATTR_TEMPERATURE)], [now] what [datetime.now()] returns
    here and [now_collect] what it returns in the collector.  The sum
    [now + override_duration] is taken to be a datetime ([is_datetime]
    below) and the service call to return: past [datetime.max] the source
    raises [OverflowError] at the sum, with the override already flagged
    active. *)
Definition async_set_temperature (self : LearningThermostat) (w : World)
    (temperature : option float) (now now_collect : datetime)
  : pyresult unit * LearningThermostat * World :=
  match temperature with
  | None => (Return tt, self, w)
  | Some temperature =>
      let self := with_target self temperature in
      let self := with_override self true (Some (now + _override_duration self)) in
      let w := add_log w (Log INFO "%s: Manual override to %s until %s") in
      let '(r, w) :=
        if String.eqb (_preset_mode self) PRESET_LEARNING_CONTROLLING then
          async_collect_data_point (_data_collector self)
            (add_log w (Log INFO "Recording manual override as new learning data point."))
            temperature now_collect
        else (Return tt, w) in
      match r with
      | Raise e => (Raise e, self, w)
      | Return _ =>
          let w := _async_set_target_climate_temp self w temperature in
          (Return tt, self, async_write_ha_state w)
      end
  end.

Definition _async_update_prediction_task (self : LearningThermostat)
  : LearningThermostat :=
  with_modes self (_hvac_mode self) (_preset_mode self)
             (String.eqb (_hvac_mode self) HVAC_MODE_AUTO).

Definition async_set_hvac_mode (self : LearningThermostat) (w : World)
    (hvac_mode : string) : LearningThermostat * World :=
  let self := with_modes self hvac_mode (_preset_mode self) (_prediction_task self) in
  (_async_update_prediction_task self, async_write_ha_state w).

Definition async_set_preset_mode (self : LearningThermostat) (w : World)
    (preset_mode : string) : LearningThermostat * World :=
  if negb (str_in preset_mode PRESETS) then
    (self, add_log w (Log WARNING "Unsupported preset mode: %s"))
  else
    (with_modes self (_hvac_mode self) preset_mode (_prediction_task self),
     async_write_ha_state w).

(** The loop [for entity_id in self._sensor_entities]. *)
Fixpoint snapshot_loop (w : World) (entity_ids : list string) (sensor_data : row float)
  : row float :=
  match entity_ids with
  | [] => sensor_data
  | entity_id :: rest =>
      let st := states_get w entity_id in
      let feature_name := sanitize_entity_id_for_feature entity_id in
      snapshot_loop w rest (dict_set sensor_data feature_name (PyStr (state_or_unknown st)))
  end.

(** What the tick does once the mode, trained and override checks let it
    through. *)
Definition predict_and_apply (self : LearningThermostat) (ml : MLCore) (w : World)
    (now_predict : datetime) : pyresult unit * LearningThermostat * World :=
  let sensor_data := snapshot_loop w (_sensor_entities self) [] in
  let w := add_call w (CallPredict sensor_data) in
  let '(r, l) := async_predict_temperature ml sensor_data now_predict in
  let w := fold_left add_log l w in
  match r with
  | Raise e => (Raise e, self, w)
  | Return (Some predicted_temp) =>
      let w := add_log w (Log INFO "%s: Predicted temperature: %s") in
      let self := with_target self (round1 predicted_temp) in
      let w := _async_set_target_climate_temp self w (_target_temperature self) in
      (Return tt, self, async_write_ha_state w)
  | Return None =>
      let w := add_log w (Log WARNING "%s: Failed to get a prediction.") in
      (Return tt, self, async_write_ha_state w)
  end.

(** [_async_prediction_loop]: the tick.  [ml] is the model manager the
    thermostat holds, [now] what [datetime.now()] returns at the override
    check and [now_predict] what it returns in the prediction job. *)
Definition _async_prediction_loop (self : LearningThermostat) (ml : MLCore) (w : World)
    (now now_predict : datetime) : pyresult unit * LearningThermostat * World :=
  if negb (String.eqb (_hvac_mode self) HVAC_MODE_AUTO) || negb (is_trained ml) then
    (Return tt, self, w)
  else if _is_override_active self then
    match _override_end_time self with
    | None =>
        (Raise (TypeError "'<' not supported between instances of 'datetime.datetime' and 'NoneType'"),
         self, w)
    | Some end_time =>
        if now <? end_time then (Return tt, self, w)
        else
          let w := add_log w (Log INFO "%s: Manual override has ended.") in
          let self := with_override self false (_override_end_time self) in
          predict_and_apply self ml w now_predict
    end
  else predict_and_apply self ml w now_predict.

(** Consecutive ticks, each given its two clock readings. *)
Fixpoint run_ticks (self : LearningThermostat) (ml : MLCore) (w : World)
    (times : list (datetime * datetime)) : pyresult unit * LearningThermostat * World :=
  match times with
  | [] => (Return tt, self, w)
  | (now, now_predict) :: rest =>
      match _async_prediction_loop self ml w now now_predict with
      | (Return _, self', w') => run_ticks self' ml w' rest
      | (Raise e, self', w') => (Raise e, self', w')
      end
  end.

End Engine.

Arguments HAState float : clear implicits.
Arguments World float : clear implicits.
Arguments call float : clear implicits.
Arguments MLCore Pipeline : clear implicits.
Arguments TrainingRecord float : clear implicits.
Arguments data_file float : clear implicits.
Arguments model_file Pipeline : clear implicits.
Arguments Event float : clear implicits.
Arguments LearningThermostat float : clear implicits.

(** ** A small backend to evaluate the definitions on

    Temperatures in tenths of a degree stand for floats, and a fitted
    pipeline predicts the first label it was fitted on. *)

#[global] Instance sample_numeric : Numeric Z := {|
  float_of_int := fun z => z;
  fmul := Z.mul;
  fdiv := Z.div;
  np_pi := 3;
  np_sin := fun x => x;
  np_cos := fun x => x;
  float_eqb := Z.eqb;
  round1 := fun x => x
|}.

Inductive sample_pipeline : Type :=
| Unfitted
| Fitted (y : list Z).

#[global] Instance sample_sklearn : Sklearn Z sample_pipeline := {|
  Pipeline_new := fun _ _ => Unfitted;
  Pipeline_fit := fun _ _ y => Return (Fitted y);
  Pipeline_predict := fun p X =>
    match p with
    | Fitted (v :: _) => Return (map (fun _ => v) X)
    | _ => Raise (ValueError "This Pipeline instance is not fitted yet.")
    end
|}.

Definition sample_record (i : nat) : TrainingRecord Z :=
  {| timestamp := Return (Z.of_nat i * 300000000);
     features := [("sensor_living_room", PyStr "21.5"); ("sensor_window", PyStr "unknown")];
     target_temperature := 200 + Z.of_nat i |}.

Definition sample_frame (n : nat) : list (TrainingRecord Z) :=
  map sample_record (seq 0 n).

Definition sample_states : dict (HAState Z) :=
  [("sensor.living_room", {| state := "21.5"; attributes := [] |});
   ("sensor.window", {| state := STATE_UNAVAILABLE; attributes := [] |})].

Definition sample_world : World Z :=
  {| states := sample_states; csv := []; csv_fault := None; calls := []; log := [] |}.

Definition sample_collector : DataCollector :=
  {| _climate_entity_id := "climate.heater";
     _sensor_entity_ids := ["sensor.living_room"; "sensor.window"; "sensor.attic"] |}.

Definition sample_thermostat (preset_mode : string) : LearningThermostat Z :=
  {| _target_climate_entity := "climate.heater";
     _sensor_entities := _sensor_entity_ids sample_collector;
     _data_collector := sample_collector;
     _override_duration := timedelta_minutes 60;
     _target_temperature := 210;
     _hvac_mode := HVAC_MODE_AUTO;
     _preset_mode := preset_mode;
     _is_override_active := false;
     _override_end_time := None;
     _prediction_task := true |}.

Definition actuator_state (target : Z) : HAState Z :=
  {| state := "heat"; attributes := [(ATTR_TEMPERATURE, target)] |}.

(** ** The rest of the integration: setup, accessors, runs of operations *)

(** *** [__init__.py]: the sensors to monitor *)

Record DeviceEntry : Type := {
  dev_id : string;
  dev_area_id : option string
}.

Record RegistryEntry : Type := {
  ent_entity_id : string;
  ent_device_id : option string;
  ent_domain : string
}.

(** A Python [set] of strings, as a list without repetitions; the order in
    which [list(...)] later yields the elements is not fixed by Python, and
    nothing below depends on it. *)
Definition set_add (x : string) (s : list string) : list string :=
  if str_in x s then s else s ++ [x].

Definition set_of_list (l : list string) : list string :=
  fold_left (fun s x => set_add x s) l [].

Definition opt_str_eqb (a : option string) (b : string) : bool :=
  match a with
  | Some x => String.eqb x b
  | None => false
  end.

(** [[device.id for device in devices if device.area_id == area_id]] *)
Definition devices_in_area (devices : list DeviceEntry) (area_id : string) : list string :=
  map dev_id (filter (fun d => opt_str_eqb (dev_area_id d) area_id) devices).

(** [entity.device_id in devices_in_area and entity.domain in
    ["sensor", "binary_sensor"]] *)
Definition entity_selected (in_area : list string) (e : RegistryEntry) : bool :=
  match ent_device_id e with
  | Some d => str_in d in_area
  | None => false
  end && str_in (ent_domain e) ["sensor"; "binary_sensor"].

(** The inner loop over the entity registry. *)
Definition area_loop (entities : list RegistryEntry) (in_area : list string)
    (sensor_entities : list string) : list string :=
  fold_left (fun s e => if entity_selected in_area e then set_add (ent_entity_id e) s else s)
            entities sensor_entities.

(** The sensor list [async_setup_entry] builds from the entry's
    [include_entities] and [areas]. *)
Definition sensor_entities_of (include_entities area_ids : list string)
    (devices : list DeviceEntry) (entities : list RegistryEntry) : list string :=
  fold_left (fun s area_id => area_loop entities (devices_in_area devices area_id) s)
            area_ids (set_of_list include_entities).

(** [timedelta(minutes=config.get("override_duration", 60))] *)
Definition entry_override_duration (override_duration : option Z) : timedelta :=
  timedelta_minutes (match override_duration with
                     | Some m => m
                     | None => 60
                     end).

Section Integration.
Context {float Pipeline : Type} `{Numeric float} `{Sklearn float Pipeline}.

(** *** [data_collector.py] and [__init__.py]: the files at setup *)

(** [_init_csv_file]: [f] is what is at the storage path and [fault] the
    error, if any, that creating the file raises.  A file that holds the
    header only reads back as a frame without rows. *)
Definition _init_csv_file (f : data_file float) (fault : option exn)
  : data_file float * list log_record :=
  match f with
  | DataAbsent =>
      match fault with
      | None => (DataFrame [], [])
      | Some e => (DataAbsent, [LogExn ERROR "Error initializing CSV file: %s" e])
      end
  | _ => (f, [])
  end.

(** The part of [async_setup_entry] that touches the two files: the
    collector's setup, the manager's constructor, and the initial training
    task, run at once. *)
Definition setup_model_manager (f : data_file float) (fault : option exn)
    (m : model_file Pipeline) (dump : pyresult unit)
  : pyresult bool * MLCore Pipeline * list log_record :=
  let '(f', l0) := _init_csv_file f fault in
  let '(ml, l1) := MLCore_init m in
  let '(r, ml', l2) := _train_model_sync ml f' dump in
  (r, ml', l0 ++ l1 ++ l2).

(** How the manager's state moves: by loads and trainings. *)
Inductive evolves : MLCore Pipeline -> MLCore Pipeline -> Prop :=
| evolves_refl (self : MLCore Pipeline) : evolves self self
| evolves_load (self self' : MLCore Pipeline) (f : model_file Pipeline) :
    evolves self self' -> evolves self (fst (_load_model self' f))
| evolves_train (self self' : MLCore Pipeline) (f : data_file float)
    (dump : pyresult unit) :
    evolves self self' -> evolves self (snd (fst (_train_model_sync self' f dump))).

(** *** [climate.py]: constructor, accessors, the actuator listener *)

(** [LearningThermostat.__init__]; [21.0] is [float_of_int 21]. *)
Definition LearningThermostat_init (target_climate_entity : string)
    (sensor_entities : list string) (data_collector : DataCollector)
    (override_duration : timedelta) : LearningThermostat float :=
  {| _target_climate_entity := target_climate_entity;
     _sensor_entities := sensor_entities;
     _data_collector := data_collector;
     _override_duration := override_duration;
     _target_temperature := float_of_int 21;
     _hvac_mode := HVAC_MODE_OFF;
     _preset_mode := PRESET_LEARNING_CONTROLLING;
     _is_override_active := false;
     _override_end_time := None;
     _prediction_task := false |}.

(** The property [preset_mode]. *)
Definition preset_mode (self : LearningThermostat float) : option string :=
  if String.eqb (_hvac_mode self) HVAC_MODE_AUTO then Some (_preset_mode self) else None.

(** The property [preset_modes]. *)
Definition preset_modes (self : LearningThermostat float) : option (list string) :=
  if String.eqb (_hvac_mode self) HVAC_MODE_AUTO then Some PRESETS else None.

(** The dict [extra_state_attributes] returns; [override_ends_at] is the
    only key that may be missing. *)
Record StateAttributes : Type := {
  attr_target_climate_entity : string;
  attr_model_trained : bool;
  attr_is_override_active : bool;
  attr_override_ends_at : option datetime
}.

Definition extra_state_attributes (self : LearningThermostat float) (ml : MLCore Pipeline)
  : StateAttributes :=
  {| attr_target_climate_entity := _target_climate_entity self;
     attr_model_trained := is_trained ml;
     attr_is_override_active := _is_override_active self;
     attr_override_ends_at :=
       if _is_override_active self then _override_end_time self else None |}.

(** [_update_target_state]: [current_temperature] is the attribute
    [self._current_temperature], which no other method assigns. *)
Definition _update_target_state (current_temperature : option float) (w : World float)
    (st : option (HAState float)) : option float * World float :=
  match st with
  | Some s =>
      if negb (str_in (state s) [STATE_UNAVAILABLE; STATE_UNKNOWN]) then
        (dict_get (attributes s) "current_temperature", async_write_ha_state w)
      else (current_temperature, w)
  | None => (current_temperature, w)
  end.

Definition _async_target_climate_state_listener (current_temperature : option float)
    (w : World float) (event : Event float) : option float * World float :=
  _update_target_state current_temperature w (new_state event).

(** The listener over consecutive events of the actuator entity. *)
Fixpoint run_state_listener (current_temperature : option float) (w : World float)
    (events : list (Event float)) : option float * World float :=
  match events with
  | [] => (current_temperature, w)
  | event :: rest =>
      let '(c, w') := _async_target_climate_state_listener current_temperature w event in
      run_state_listener c w' rest
  end.

(** *** Runs of the controller

    What reaches the thermostat and its collector, one event at a time:
    the three service calls, a tick (with the manager as it is then), a
    state change of the actuator entity, and a change of the surroundings
    (the state machine and whether the training file can be written). *)
Inductive operation : Type :=
| OpSetTemperature (temperature : option float) (now now_collect : datetime)
| OpSetHvacMode (hvac_mode : string)
| OpSetPresetMode (preset_mode : string)
| OpTick (ml : MLCore Pipeline) (now now_predict : datetime)
| OpActuatorEvent (event : Event float) (now : datetime)
| OpSurroundings (new_states : dict (HAState float)) (fault : option exn).

Definition apply_operation (self : LearningThermostat float) (w : World float)
    (op : operation) : pyresult unit * LearningThermostat float * World float :=
  match op with
  | OpSetTemperature temperature now now_collect =>
      async_set_temperature self w temperature now now_collect
  | OpSetHvacMode hvac_mode =>
      let '(self', w') := async_set_hvac_mode self w hvac_mode in (Return tt, self', w')
  | OpSetPresetMode p =>
      let '(self', w') := async_set_preset_mode self w p in (Return tt, self', w')
  | OpTick ml now now_predict => _async_prediction_loop self ml w now now_predict
  | OpActuatorEvent event now =>
      let '(r, w') :=
        _async_handle_initial_learning_state_change (_data_collector self) w event now in
      (r, self, w')
  | OpSurroundings new_states fault =>
      (Return tt, self,
       {| states := new_states; csv := csv w; csv_fault := fault;
          calls := calls w; log := log w |})
  end.

Fixpoint run_operations (self : LearningThermostat float) (w : World float)
    (ops : list operation) : pyresult unit * LearningThermostat float * World float :=
  match ops with
  | [] => (Return tt, self, w)
  | op :: rest =>
      match apply_operation self w op with
      | (Return _, self', w') => run_operations self' w' rest
      | (Raise e, self', w') => (Raise e, self', w')
      end
  end.

(** The state the tick relies on: an active override has an end time. *)
Definition override_has_end (self : LearningThermostat float) : Prop :=
  _is_override_active self = true -> _override_end_time self <> None.

(** The periodic tick is installed exactly in mode auto, and the preset is
    one of the two the thermostat offers. *)
Definition modes_consistent (self : LearningThermostat float) : Prop :=
  _prediction_task self = String.eqb (_hvac_mode self) HVAC_MODE_AUTO
  /\ str_in (_preset_mode self) PRESETS = true.

(** The temperatures that [ops] ask the thermostat to set. *)
Fixpoint manual_temperatures (ops : list operation) : list float :=
  match ops with
  | [] => []
  | OpSetTemperature (Some t) _ _ :: rest => t :: manual_temperatures rest
  | _ :: rest => manual_temperatures rest
  end.

(** The temperatures sent to the actuator among [cs]. *)
Fixpoint sent_temperatures (cs : list (call float)) : list (string * float) :=
  match cs with
  | [] => []
  | CallSetTemperature e t :: rest => (e, t) :: sent_temperatures rest
  | _ :: rest => sent_temperatures rest
  end.

(** What one operation does to the thermostat and to the world. *)
Definition effects (self : LearningThermostat float) (w : World float) (op : operation)
    (r : pyresult unit) (self' : LearningThermostat float) (w' : World float) : Prop :=
  _target_climate_entity self' = _target_climate_entity self
  /\ _data_collector self' = _data_collector self
  /\ (exists new_calls,
        calls w' = calls w ++ new_calls
        /\ sent_temperatures new_calls
           = map (fun t => (_target_climate_entity self, t)) (manual_temperatures [op]))
  /\ (exists new_rows,
        csv w' = csv w ++ new_rows
        /\ Forall (fun r => map fst r = _fieldnames (_data_collector self)) new_rows)
  /\ _target_temperature self'
     = last (manual_temperatures [op]) (_target_temperature self)
  /\ (override_has_end self -> r = Return tt /\ override_has_end self')
  /\ (modes_consistent self -> modes_consistent self').

End Integration.

Arguments operation float Pipeline : clear implicits.

(** A backend whose fit raises, and inputs for runs of the controller. *)

Definition failing_sklearn : Sklearn Z sample_pipeline := {|
  Pipeline_new := fun _ _ => Unfitted;
  Pipeline_fit := fun _ _ _ => Raise (ValueError "Input y contains NaN.");
  Pipeline_predict := fun _ _ =>
    Raise (ValueError "This Pipeline instance is not fitted yet.")
|}.

Definition sample_manager : MLCore sample_pipeline :=
  {| model := Some (Fitted [215]); is_trained := true |}.

Definition sample_init : LearningThermostat Z :=
  LearningThermostat_init "climate.heater" (_sensor_entity_ids sample_collector)
    sample_collector (entry_override_duration None).

Definition sample_ops : list (operation Z sample_pipeline) :=
  [OpSetHvacMode HVAC_MODE_AUTO;
   OpSetTemperature (Some 225) 0 1;
   OpTick sample_manager 300000000 300000001;
   OpActuatorEvent {| old_state := Some (actuator_state 210);
                      new_state := Some (actuator_state 225) |} 2;
   OpSetPresetMode "Eco";
   OpSurroundings [] (Some (OSError "Read-only file system"));
   OpSetTemperature (Some 190) 4000000000 4000000001;
   OpTick sample_manager 8000000000 8000000001;
   OpSetHvacMode "heat"].

(** The range of [datetime.datetime]: 0001-01-01T00:00:00 to
    9999-12-31T23:59:59.999999. *)
Definition datetime_min : datetime := -62135596800000000.
Definition datetime_max : datetime := 253402300799999999.

Definition is_datetime (t : Z) : Prop := datetime_min <= t <= datetime_max.

(** The manual changes among [ops] are made at a datetime and end at one,
    for a thermostat whose override lasts [duration]. *)
Fixpoint expiries_representable {float Pipeline : Type} (duration : timedelta)
    (ops : list (operation float Pipeline)) : Prop :=
  match ops with
  | [] => True
  | OpSetTemperature (Some _) now _ :: rest =>
      is_datetime now /\ is_datetime (now + duration)
      /\ expiries_representable duration rest
  | _ :: rest => expiries_representable duration rest
  end.

(** Twenty records of which the second has a timestamp whose conversion
    raises. *)
Definition sample_frame_mixed : list (TrainingRecord Z) :=
  match sample_frame 20 with
  | r0 :: r1 :: rest =>
      r0 :: {| timestamp := Raise (ValueError "time data doesn't match format");
               features := features r1;
               target_temperature := target_temperature r1 |} :: rest
  | l => l
  end.

(** * Properties *)

(** ** Dicts *)

Section DictFacts.
Context {V : Type}.
Implicit Types (d : dict V) (k : string) (v : V).

Lemma dict_get_set_same d k v : dict_get (dict_set d k v) k = Some v.
Proof.
  induction d as [|[k0 v0] d IH]; simpl.
  - now rewrite String.eqb_refl.
  - destruct (String.eqb k0 k) eqn:E; simpl; rewrite E; auto.
Qed.

Lemma dict_get_set_other d k k' v :
  k <> k' -> dict_get (dict_set d k v) k' = dict_get d k'.
Proof.
  intros Hne. induction d as [|[k0 v0] d IH]; simpl.
  - destruct (String.eqb k k') eqn:E; auto.
    apply String.eqb_eq in E. contradiction.
  - destruct (String.eqb k0 k) eqn:E; simpl.
    + apply String.eqb_eq in E. subst k0.
      destruct (String.eqb k k') eqn:E'; auto.
      apply String.eqb_eq in E'. contradiction.
    + now rewrite IH.
Qed.

Lemma dict_get_map_keys (f : string -> V) (keys : list string) k :
  In k keys -> dict_get (map (fun x => (x, f x)) keys) k = Some (f k).
Proof.
  induction keys as [|x keys IH]; simpl; [tauto|].
  intros Hin. destruct (String.eqb x k) eqn:E.
  - apply String.eqb_eq in E. now subst.
  - destruct Hin as [->|Hin]; [|auto].
    now rewrite String.eqb_refl in E.
Qed.
End DictFacts.

(** ** The snapshot encoding *)

Section Encoding.
Context {float : Type}.
Implicit Types (w : World float) (ids : list string) (acc : row float).

Lemma snapshot_loop_other w ids : forall acc k,
  ~ In k (map sanitize_entity_id_for_feature ids) ->
  dict_get (snapshot_loop w ids acc) k = dict_get acc k.
Proof.
  induction ids as [|e ids IH]; simpl; intros acc k Hk; [reflexivity|].
  rewrite IH by tauto.
  apply dict_get_set_other. intros E. apply Hk. now left.
Qed.

Lemma snapshot_loop_get w ids :
  NoDup (map sanitize_entity_id_for_feature ids) ->
  forall acc eid, In eid ids ->
  dict_get (snapshot_loop w ids acc) (sanitize_entity_id_for_feature eid)
  = Some (PyStr (state_or_unknown (states_get w eid))).
Proof.
  induction ids as [|e ids IH]; simpl; intros Hnd acc eid Hin; [contradiction|].
  inversion Hnd as [|x l Hnotin Hnd']; subst.
  destruct Hin as [->|Hin].
  - rewrite snapshot_loop_other by assumption.
    apply dict_get_set_same.
  - now apply IH.
Qed.

(** The collector's indexed loop never runs out of feature names and
    builds what the controller's loop builds. *)
Lemma collect_loop_snapshot w ids : forall pre acc,
  collect_loop w (pre ++ map sanitize_entity_id_for_feature ids) (List.length pre) ids acc
  = Return (snapshot_loop w ids acc).
Proof.
  induction ids as [|e ids IH]; simpl; intros pre acc; [reflexivity|].
  rewrite nth_error_app2 by lia.
  rewrite Nat.sub_diag. simpl.
  specialize (IH (pre ++ [sanitize_entity_id_for_feature e])).
  rewrite <- app_assoc, length_app in IH. simpl in IH.
  rewrite Nat.add_1_r in IH. apply IH.
Qed.

Lemma collect_loop_total (dc : DataCollector) w acc :
  collect_loop w (_feature_names dc) 0 (_sensor_entity_ids dc) acc
  = Return (snapshot_loop w (_sensor_entity_ids dc) acc).
Proof. apply (collect_loop_snapshot w (_sensor_entity_ids dc) []). Qed.

(** C9, as amended: the snapshot encoding is total on both paths, and
    for every configured sensor (feature names being distinct) the column
    holds a string, never a number: the token "unknown" when the entity
    has no state object, and otherwise the reported state as it is, so
    "unknown" for Unknown and "unavailable" for Unavailable. *)
Theorem C9_snapshot_encoding_verbatim w (dc : DataCollector) (eid : string)
    (now : datetime) :
  NoDup (_feature_names dc) ->
  In eid (_sensor_entity_ids dc) ->
  let column := sanitize_entity_id_for_feature eid in
  let value := state_or_unknown (states_get w eid) in
  dict_get (snapshot_loop w (_sensor_entity_ids dc) []) column = Some (PyStr value)
  /\ (exists data_row,
        collect_loop w (_feature_names dc) 0 (_sensor_entity_ids dc)
          [("timestamp", PyIso now)] = Return data_row
        /\ dict_get data_row column = Some (PyStr value))
  /\ (states_get w eid = None -> value = "unknown")
  /\ (forall st, states_get w eid = Some st ->
        value = state st
        /\ (state st = STATE_UNKNOWN -> value = "unknown")
        /\ (state st = STATE_UNAVAILABLE -> value = "unavailable")).
Proof.
  intros Hnd Hin column value. unfold _feature_names in Hnd.
  split; [now apply snapshot_loop_get|].
  split.
  - exists (snapshot_loop w (_sensor_entity_ids dc) [("timestamp", PyIso now)]).
    split; [apply collect_loop_total | now apply snapshot_loop_get].
  - subst value. split.
    + now intros ->.
    + intros st ->. simpl. repeat split; intros E; now rewrite E.
Qed.
End Encoding.

Lemma C9_snapshot_encoding_verbatim_witness :
  dict_get (snapshot_loop sample_world (_sensor_entity_ids sample_collector) [])
           (sanitize_entity_id_for_feature "sensor.attic")
  = Some (PyStr "unknown").
Proof.
  apply (C9_snapshot_encoding_verbatim
           sample_world sample_collector "sensor.attic" 0).
  - repeat constructor; simpl; intuition discriminate.
  - simpl. tauto.
Defined.

(** Against C9 as stated: a sensor that reports Unavailable gets the
    column value "unavailable", not the token "unknown", on both paths. *)
Lemma C9_unavailable_is_not_unknown :
  In "sensor.window" (_sensor_entity_ids sample_collector)
  /\ states_get sample_world "sensor.window"
     = Some {| state := STATE_UNAVAILABLE; attributes := [] |}
  /\ dict_get (snapshot_loop sample_world (_sensor_entity_ids sample_collector) [])
              "sensor_window" = Some (PyStr "unavailable")
  /\ (exists data_row,
        collect_loop sample_world (_feature_names sample_collector) 0
          (_sensor_entity_ids sample_collector) [("timestamp", PyIso 0)]
        = Return data_row
        /\ dict_get data_row "sensor_window" = Some (PyStr "unavailable"))
  /\ dict_get (snapshot_loop sample_world (_sensor_entity_ids sample_collector) [])
              "sensor_window" <> Some (PyStr "unknown").
Proof.
  split; [simpl; tauto|].
  split; [reflexivity|].
  split; [reflexivity|].
  split; [eexists; split; reflexivity|].
  simpl. discriminate.
Qed.

(** ** The model manager *)

Section ModelManager.
Context {float Pipeline : Type} `{Numeric float} `{Sklearn float Pipeline}.
Implicit Types (self : MLCore Pipeline) (df : list (TrainingRecord float))
  (sensor_data : row float) (now ts : datetime).

Lemma train_time_features_eq ts :
  train_time_features ts
  = Return (np_sin (day_angle (seconds_from_midnight ts)),
            np_cos (day_angle (seconds_from_midnight ts)),
            dt_weekday ts).
Proof. reflexivity. Qed.

Lemma predict_time_features_raises now :
  @predict_time_features float _ now
  = Raise (AttributeError "datetime.datetime" "dayofweek").
Proof. reflexivity. Qed.

Lemma predict_body_raises self sensor_data now :
  predict_body self sensor_data now
  = Raise (AttributeError "datetime.datetime" "dayofweek").
Proof. reflexivity. Qed.

Lemma mapM_X_row_converted df :
  Forall (fun r => exists ts, timestamp r = Return ts) df ->
  exists X, mapM X_row df = Return X /\ List.length X = List.length df.
Proof.
  intros Hall. induction Hall as [|r df [ts Hts] _ [X [E L]]].
  - now exists [].
  - cbn [mapM]. rewrite E. unfold X_row. rewrite Hts. cbn [bind].
    rewrite train_time_features_eq.
    cbn [bind]. eexists. split; [reflexivity|]. simpl. now rewrite L.
Qed.

Lemma mapM_X_row_raises df (e : exn) :
  mapM X_row df = Raise e -> exists r, In r df /\ timestamp r = Raise e.
Proof.
  induction df as [|r df IH]; cbn [mapM]; [discriminate|].
  unfold X_row at 1. destruct (timestamp r) as [ts|e'] eqn:Hts; cbn [bind].
  - rewrite train_time_features_eq. cbn [bind].
    destruct (mapM X_row df) as [X|e'']; cbn [bind]; [discriminate|].
    intros E. injection E as ->. destruct IH as [r' [Hin Hr']]; [reflexivity|].
    exists r'. split; [now right|assumption].
  - intros E. injection E as ->. exists r. split; [now left|assumption].
Qed.

(** C1, evaluated: at every instant the training path yields the three
    derived columns, with [day_of_week] counted from Monday = 0, while the
    prediction path computes the same seconds since midnight but raises
    [AttributeError] on [now.dayofweek], so it yields no [day_of_week] in any
    convention. *)
Theorem C1_time_encoding_diverges ts :
  train_time_features ts
  = Return (np_sin (day_angle (seconds_from_midnight ts)),
            np_cos (day_angle (seconds_from_midnight ts)),
            dt_weekday ts)
  /\ (forall a, a <> dayofweek -> datetime_getattr ts a = Series_dt ts a)
  /\ @predict_time_features float _ ts
     = Raise (AttributeError "datetime.datetime" "dayofweek")
  /\ @train_time_features float _ ts <> predict_time_features ts.
Proof.
  split; [reflexivity|]. split.
  - intros [] Ha; try reflexivity. now elim Ha.
  - split; [reflexivity|]. rewrite train_time_features_eq. discriminate.
Qed.

Lemma train_enough df dump self X :
  (20 <= List.length df)%nat ->
  mapM X_row df = Return X ->
  _train_model_sync self (DataFrame df) dump
  = let p := Pipeline_new (select_dtypes (fun v => negb (is_object v)) X)
                          (select_dtypes is_object X) in
    match Pipeline_fit p X (map (@target_temperature float) df) with
    | Raise e => (Raise e, {| model := Some p; is_trained := is_trained self |},
                  [Log INFO "Starting model training..."])
    | Return fitted =>
        match dump with
        | Return _ =>
            (Return true, {| model := Some fitted; is_trained := true |},
             ([Log INFO "Starting model training..."] ++ [Log INFO "Model training completed successfully."])
               ++ [Log INFO "Model saved to %s"])
        | Raise e =>
            (Return false, {| model := Some fitted; is_trained := is_trained self |},
             ([Log INFO "Starting model training..."] ++ [Log INFO "Model training completed successfully."])
               ++ [LogExn ERROR "Error saving model: %s" e])
        end
    end.
Proof.
  intros Hlen HX. unfold _train_model_sync.
  destruct (Nat.ltb_spec (List.length df) 20) as [Hlt|_]; [lia|].
  rewrite HX. reflexivity.
Qed.

(** C2, as amended: with fewer than 20 records training returns the
    failure result [False] and leaves both the model and the trained flag
    as they were; with exactly 20 records whose timestamps convert, when the
    fit returns, it returns [True] with the fitted pipeline as model and the
    flag set if the save goes through, and [False] with the flag as it was
    if the save fails. *)
Theorem C2_train_threshold_given_fit_and_save self df :
  (forall dump, (List.length df < 20)%nat ->
     _train_model_sync self (DataFrame df) dump
     = (Return false, self,
        [Log INFO "Starting model training...";
         Log INFO "Not enough data to train. Have %d, need 20."]))
  /\ (List.length df = 20%nat ->
      Forall (fun r => exists ts, timestamp r = Return ts) df ->
      exists X, mapM X_row df = Return X
      /\ forall fitted,
           Pipeline_fit
             (Pipeline_new (select_dtypes (fun v => negb (is_object v)) X)
                           (select_dtypes is_object X))
             X (map (@target_temperature float) df) = Return fitted ->
           (forall u, exists l,
              _train_model_sync self (DataFrame df) (Return u)
              = (Return true, {| model := Some fitted; is_trained := true |}, l))
           /\ (forall e, exists l,
                 _train_model_sync self (DataFrame df) (Raise e)
                 = (Return false,
                    {| model := Some fitted; is_trained := is_trained self |}, l))).
Proof.
  split.
  - intros dump Hlt. unfold _train_model_sync.
    destruct (Nat.ltb_spec (List.length df) 20) as [_|Hge]; [reflexivity|lia].
  - intros Hlen Hts. destruct (mapM_X_row_converted df Hts) as [X [HX _]].
    exists X. split; [exact HX|]. intros fitted Hfit. split.
    + intros u. rewrite (train_enough df (Return u) self X) by (lia || assumption).
      cbv zeta. rewrite Hfit. eexists. reflexivity.
    + intros e. rewrite (train_enough df (Raise e) self X) by (lia || assumption).
      cbv zeta. rewrite Hfit. eexists. reflexivity.
Qed.



(** C8: for a fixed manager state and record, two predictions return the
    same value and log the same records, whenever they are made. *)
Theorem C8_predict_deterministic self sensor_data now1 now2 :
  async_predict_temperature self sensor_data now1
  = async_predict_temperature self sensor_data now2.
Proof.
  unfold async_predict_temperature, _predict_temperature_sync.
  now rewrite !predict_body_raises.
Qed.

Lemma load_preserves self f :
  trained_has_model self -> trained_has_model (fst (_load_model self f)).
Proof. destruct f; simpl; auto. intros _ _. discriminate. Qed.

Lemma train_preserves self f dump :
  trained_has_model self ->
  trained_has_model (snd (fst (_train_model_sync self f dump))).
Proof.
  intros Hinv. unfold _train_model_sync.
  destruct f as [| |df|rows e]; simpl; auto;
    [|destruct (Nat.ltb rows 20); simpl; auto].
  destruct (Nat.ltb (List.length df) 20); simpl; auto.
  destruct (mapM X_row df) as [X|]; simpl; auto.
  destruct (Pipeline_fit _ X _); [destruct dump|]; simpl;
    intros _; discriminate.
Qed.

(** C10: in every state the manager can reach from its constructor by
    loads and trainings, a set trained flag comes with a model; so the
    guard of a prediction never sees the flag set and the model missing,
    and it fails exactly when the flag is not set. *)
Theorem C10_trained_flag_implies_model self :
  reachable self ->
  (is_trained self = true -> model self <> None)
  /\ ~ (is_trained self = true /\ model self = None)
  /\ not_trained self = negb (is_trained self).
Proof.
  intros Hr.
  assert (Hinv : trained_has_model self).
  { induction Hr.
    - apply load_preserves. intros E. discriminate.
    - now apply load_preserves.
    - now apply train_preserves. }
  split; [exact Hinv|]. split.
  - intros [Ht Hm]. now apply Hinv.
  - unfold not_trained. destruct (is_trained self) eqn:Ht; simpl; [|reflexivity].
    destruct (model self) eqn:Hm; [reflexivity|].
    exfalso. now apply Hinv.
Qed.
End ModelManager.

(** ** The collector and the controller *)

Section Controller.
Context {float Pipeline : Type} `{Numeric float} `{Sklearn float Pipeline}.
Implicit Types (self : LearningThermostat float) (ml : MLCore Pipeline)
  (w : World float) (dc : DataCollector).

Lemma calls_fold_add_log (l : list log_record) : forall w,
  calls (fold_left add_log l w) = calls w
  /\ csv (fold_left add_log l w) = csv w
  /\ states (fold_left add_log l w) = states w.
Proof.
  induction l as [|r l IH]; simpl; intros w; [auto|].
  destruct (IH (add_log w r)) as (-> & -> & ->). auto.
Qed.

(** The dict the collector hands to the writer for label [t]. *)
Lemma collect_data_point_eq dc w (t : float) now :
  async_collect_data_point dc w t now
  = (Return tt,
     _write_to_csv dc w
       (dict_set (snapshot_loop w (_sensor_entity_ids dc) [("timestamp", PyIso now)])
                 "target_temperature" (PyFloat t))).
Proof.
  unfold async_collect_data_point. now rewrite collect_loop_total.
Qed.

Lemma snapshot_loop_states w w' ids : forall acc,
  states w = states w' -> snapshot_loop w ids acc = snapshot_loop w' ids acc.
Proof.
  induction ids as [|e ids IH]; simpl; intros acc E; [reflexivity|].
  unfold states_get. rewrite E. now apply IH.
Qed.

Lemma written_row_label dc (data_row : row float) (t : float) :
  dict_get (writerow (_fieldnames dc) (dict_set data_row "target_temperature" (PyFloat t)))
           "target_temperature"
  = Some (PyFloat t).
Proof.
  unfold writerow.
  rewrite (dict_get_map_keys
             (fun k => match dict_get (dict_set data_row "target_temperature" (PyFloat t)) k with
                       | Some v => v
                       | None => PyStr ""
                       end)).
  - now rewrite dict_get_set_same.
  - unfold _fieldnames. apply in_or_app. right. apply in_or_app. right. now left.
Qed.

Lemma app_one_neq {A : Type} (l : list A) (a : A) : l ++ [a] <> l.
Proof.
  intros E. apply (f_equal (@List.length A)) in E.
  rewrite length_app in E. simpl in E. lia.
Qed.

Lemma calls_write_to_csv dc w (data_row : row float) :
  calls (_write_to_csv dc w data_row) = calls w.
Proof. unfold _write_to_csv. now destruct (csv_fault w). Qed.

Lemma csv_write_to_csv dc w (data_row : row float) :
  csv (_write_to_csv dc w data_row)
  = match csv_fault w with
    | None => csv w ++ [writerow (_fieldnames dc) data_row]
    | Some _ => csv w
    end.
Proof. unfold _write_to_csv. now destruct (csv_fault w). Qed.

Lemma set_temperature_eq self w (v : float) (now now_collect : datetime) :
  async_set_temperature self w (Some v) now now_collect
  = let self' := with_override (with_target self v) true
                   (Some (now + _override_duration self)) in
    let w1 := add_log w (Log INFO "%s: Manual override to %s until %s") in
    let w2 :=
      if String.eqb (_preset_mode self) PRESET_LEARNING_CONTROLLING then
        _write_to_csv (_data_collector self)
          (add_log w1 (Log INFO "Recording manual override as new learning data point."))
          (dict_set (snapshot_loop w (_sensor_entity_ids (_data_collector self))
                       [("timestamp", PyIso now_collect)])
                    "target_temperature" (PyFloat v))
      else w1 in
    (Return tt, self', async_write_ha_state (_async_set_target_climate_temp self' w2 v)).
Proof.
  unfold async_set_temperature. cbn [_preset_mode with_override with_target].
  destruct (String.eqb (_preset_mode self) PRESET_LEARNING_CONTROLLING).
  - rewrite collect_data_point_eq.
    rewrite (snapshot_loop_states _ w) by reflexivity. reflexivity.
  - reflexivity.
Qed.

(** C5: a manual [set_temperature(v)], in any mode, makes the override
    active until [now + override_duration], stores [v] as the target and
    sends [v] to the actuator; the training file grows by the record of the
    current snapshot, labelled [v], when the preset is
    "Learning & Controlling" (unless the write fails, which is logged and
    swallowed) and stays as it is for any other preset: with a writable
    file a record is appended exactly when the preset is
    "Learning & Controlling". *)
Theorem C5_manual_set_temperature self w (v : float) (now now_collect : datetime) :
  exists self' w',
    async_set_temperature self w (Some v) now now_collect = (Return tt, self', w')
    /\ _is_override_active self' = true
    /\ _override_end_time self' = Some (now + _override_duration self)
    /\ _target_temperature self' = v
    /\ _hvac_mode self' = _hvac_mode self
    /\ _preset_mode self' = _preset_mode self
    /\ calls w' = calls w ++ [CallSetTemperature (_target_climate_entity self) v;
                             CallWriteHaState]
    /\ let record :=
         writerow (_fieldnames (_data_collector self))
           (dict_set (snapshot_loop w (_sensor_entity_ids (_data_collector self))
                        [("timestamp", PyIso now_collect)])
                     "target_temperature" (PyFloat v)) in
       dict_get record "target_temperature" = Some (PyFloat v)
       /\ csv w'
          = (if String.eqb (_preset_mode self) PRESET_LEARNING_CONTROLLING
             then match csv_fault w with
                  | None => csv w ++ [record]
                  | Some _ => csv w
                  end
             else csv w)
       /\ (csv_fault w = None ->
           (csv w' = csv w ++ [record]
            <-> _preset_mode self = PRESET_LEARNING_CONTROLLING)).
Proof.
  rewrite set_temperature_eq. cbv zeta.
  do 2 eexists. split; [reflexivity|]. repeat (split; [reflexivity|]).
  split.
  - cbn [calls async_write_ha_state _async_set_target_climate_temp add_call].
    destruct (String.eqb (_preset_mode self) PRESET_LEARNING_CONTROLLING);
      [rewrite calls_write_to_csv|]; simpl; now rewrite <- app_assoc.
  - split; [apply written_row_label|].
    cbn [csv async_write_ha_state _async_set_target_climate_temp add_call].
    destruct (String.eqb_spec (_preset_mode self) PRESET_LEARNING_CONTROLLING) as [E|E].
    + rewrite csv_write_to_csv. cbn [csv_fault csv add_log].
      split; [reflexivity|]. intros ->. tauto.
    + cbn [csv add_log]. split; [reflexivity|]. intros _.
      split; [|contradiction].
      intros Habs. symmetry in Habs. now apply app_one_neq in Habs.
Qed.

(** What a prediction answers, in either branch of its guard. *)
Lemma predict_answers_None ml (sensor_data : row float) (now : datetime) :
  exists l, async_predict_temperature ml sensor_data now = (Return None, l).
Proof.
  unfold async_predict_temperature, _predict_temperature_sync.
  rewrite predict_body_raises.
  destruct (not_trained ml); eexists; reflexivity.
Qed.

Lemma predict_and_apply_calls self ml w (now_predict : datetime) :
  exists w',
    predict_and_apply self ml w now_predict = (Return tt, self, w')
    /\ calls w' = calls w ++ [CallPredict (snapshot_loop w (_sensor_entities self) []);
                              CallWriteHaState].
Proof.
  unfold predict_and_apply.
  destruct (predict_answers_None ml (snapshot_loop w (_sensor_entities self) []) now_predict)
    as [l ->].
  eexists. split; [reflexivity|].
  cbn [calls async_write_ha_state add_call add_log].
  destruct (calls_fold_add_log l
              (add_call w (CallPredict (snapshot_loop w (_sensor_entities self) []))))
    as (-> & _ & _).
  simpl. now rewrite <- app_assoc.
Qed.

Lemma tick_inside_window self ml w (end_time now now_predict : datetime) :
  _hvac_mode self = HVAC_MODE_AUTO ->
  is_trained ml = true ->
  _is_override_active self = true ->
  _override_end_time self = Some end_time ->
  now < end_time ->
  _async_prediction_loop self ml w now now_predict = (Return tt, self, w).
Proof.
  intros Hm Ht Ha He Hlt. unfold _async_prediction_loop.
  rewrite Hm, Ht, Ha, He. simpl.
  destruct (Z.ltb_spec now end_time); [reflexivity|lia].
Qed.

Lemma tick_after_window self ml w (end_time now now_predict : datetime) :
  _hvac_mode self = HVAC_MODE_AUTO ->
  is_trained ml = true ->
  _is_override_active self = true ->
  _override_end_time self = Some end_time ->
  end_time <= now ->
  _async_prediction_loop self ml w now now_predict
  = predict_and_apply (with_override self false (Some end_time)) ml
      (add_log w (Log INFO "%s: Manual override has ended.")) now_predict.
Proof.
  intros Hm Ht Ha He Hge. unfold _async_prediction_loop.
  rewrite Hm, Ht, Ha, He. simpl.
  destruct (Z.ltb_spec now end_time); [lia|reflexivity].
Qed.

(** C4: with an override duration of 60 minutes, in Auto with a trained
    model, after a manual [set_temperature(v)] at [t0]: any run of ticks
    at times in [[t0, t0 + 60min)] leaves the thermostat, with its override
    active, and the world as they are, so no prediction is requested and
    nothing is sent to the actuator; a tick at [t0 + 60min] or later then
    clears the override and requests a prediction for the current
    snapshot. *)
Theorem C4_override_window self ml w (v : float) (t0 t0_collect : datetime) :
  _hvac_mode self = HVAC_MODE_AUTO ->
  is_trained ml = true ->
  _override_duration self = timedelta_minutes 60 ->
  exists self0 w0,
    async_set_temperature self w (Some v) t0 t0_collect = (Return tt, self0, w0)
    /\ _is_override_active self0 = true
    /\ (forall times,
          Forall (fun tt' => t0 <= fst tt' < t0 + timedelta_minutes 60) times ->
          run_ticks self0 ml w0 times = (Return tt, self0, w0))
    /\ (forall t t_predict,
          t0 + timedelta_minutes 60 <= t ->
          exists self1 w1 rest,
            _async_prediction_loop self0 ml w0 t t_predict = (Return tt, self1, w1)
            /\ _is_override_active self1 = false
            /\ calls w1
               = calls w0 ++ CallPredict (snapshot_loop w0 (_sensor_entities self0) [])
                              :: rest).
Proof.
  intros Hm Ht Hd. rewrite set_temperature_eq. cbv zeta. rewrite Hd.
  set (self0 := with_override (with_target self v) true
                  (Some (t0 + timedelta_minutes 60))).
  match goal with
  | |- context [(Return tt, self0, ?x)] => set (w0 := x)
  end.
  exists self0, w0. split; [reflexivity|]. split; [reflexivity|].
  split.
  - intros times Hall. induction Hall as [|[t tp] times Hin _ IH]; [reflexivity|].
    cbn [run_ticks].
    rewrite (tick_inside_window self0 ml w0 (t0 + timedelta_minutes 60));
      auto; simpl in Hin; lia.
  - intros t tp Hge.
    rewrite (tick_after_window self0 ml w0 (t0 + timedelta_minutes 60)); auto.
    destruct (predict_and_apply_calls
                (with_override self0 false (Some (t0 + timedelta_minutes 60))) ml
                (add_log w0 (Log INFO "%s: Manual override has ended.")) tp)
      as [w1 [E Hc]].
    exists (with_override self0 false (Some (t0 + timedelta_minutes 60))).
    exists w1, [CallWriteHaState].
    split; [exact E|]. split; [reflexivity|].
    rewrite Hc. rewrite (snapshot_loop_states _ w0) by reflexivity. reflexivity.
Qed.

(** The listener appends a record for every change of the actuator's
    target, whatever the thermostat's preset is: the preset is not among
    the things it reads. *)
Lemma listener_records_change dc w (o n : HAState float) (new_temp : float)
    (now : datetime) :
  dict_get (attributes n) ATTR_TEMPERATURE = Some new_temp ->
  py_ne (dict_get (attributes o) ATTR_TEMPERATURE) (Some new_temp) = true ->
  csv_fault w = None ->
  exists w' record,
    _async_handle_initial_learning_state_change dc w
      {| old_state := Some o; new_state := Some n |} now = (Return tt, w')
    /\ csv w' = csv w ++ [record]
    /\ dict_get record "target_temperature" = Some (PyFloat new_temp).
Proof.
  intros Hn Hne Hw. unfold _async_handle_initial_learning_state_change.
  cbn [old_state new_state]. rewrite Hn, Hne, collect_data_point_eq.
  do 2 eexists. split; [reflexivity|].
  rewrite csv_write_to_csv. cbn [csv_fault csv add_log]. rewrite Hw.
  split; [reflexivity|]. apply written_row_label.
Qed.
End Controller.

(** ** The properties on the sample backend *)

Lemma C2_train_threshold_given_fit_and_save_witness :
  _train_model_sync {| model := None; is_trained := false |}
    (DataFrame (sample_frame 19)) (Return tt)
  = (Return false, {| model := @None sample_pipeline; is_trained := false |},
     [Log INFO "Starting model training...";
      Log INFO "Not enough data to train. Have %d, need 20."])
  /\ exists l,
       _train_model_sync {| model := None; is_trained := false |}
         (DataFrame (sample_frame 20)) (Return tt)
       = (Return true,
          {| model := Some (Fitted (map (@target_temperature Z) (sample_frame 20)));
             is_trained := true |}, l).
Proof.
  split.
  - apply (proj1 (C2_train_threshold_given_fit_and_save
                    {| model := None; is_trained := false |} (sample_frame 19))).
    simpl. lia.
  - destruct (proj2 (C2_train_threshold_given_fit_and_save
                       {| model := @None sample_pipeline; is_trained := false |}
                       (sample_frame 20)) eq_refl)
      as [X [_ Hfit]].
    + repeat constructor; eexists; reflexivity.
    + apply (proj1 (Hfit (Fitted (map (@target_temperature Z) (sample_frame 20)))
                         eq_refl) tt).
Defined.

(** Against C2 as stated: with exactly 20 records training does not
    return success when the save fails (it returns [False] and the flag
    stays unset), nor when the conversion of a timestamp or the fit raises
    (the exception leaves the training). *)
Lemma C2_twenty_records_without_success :
  List.length (sample_frame 20) = 20%nat
  /\ (exists self' l,
        _train_model_sync {| model := @None sample_pipeline; is_trained := false |}
          (DataFrame (sample_frame 20)) (Raise (OSError "No space left on device"))
        = (Return false, self', l)
        /\ is_trained self' = false)
  /\ List.length sample_frame_mixed = 20%nat
  /\ (exists l,
        _train_model_sync {| model := @None sample_pipeline; is_trained := false |}
          (DataFrame sample_frame_mixed) (Return tt)
        = (Raise (ValueError "time data doesn't match format"),
           {| model := None; is_trained := false |}, l))
  /\ (exists self' l,
        @_train_model_sync Z sample_pipeline sample_numeric failing_sklearn
          {| model := None; is_trained := false |}
          (DataFrame (sample_frame 20)) (Return tt)
        = (Raise (ValueError "Input y contains NaN."), self', l)
        /\ is_trained self' = false).
Proof.
  split; [reflexivity|].
  split; [do 2 eexists; split; reflexivity|].
  split; [reflexivity|].
  split; [eexists; reflexivity|].
  do 2 eexists; split; reflexivity.
Qed.


Lemma C4_override_window_witness :
  exists self0 w0,
    async_set_temperature (sample_thermostat PRESET_LEARNING_CONTROLLING) sample_world
      (Some 225) 0 0 = (Return tt, self0, w0)
    /\ _is_override_active self0 = true
    /\ run_ticks self0 {| model := Some (Fitted [215]); is_trained := true |} w0
         [(0, 0); (300000000, 300000001); (3599999999, 3600000000)]
       = (Return tt, self0, w0)
    /\ exists self1 w1 rest,
         _async_prediction_loop self0 {| model := Some (Fitted [215]); is_trained := true |}
           w0 3600000000 3600000001 = (Return tt, self1, w1)
         /\ _is_override_active self1 = false
         /\ calls w1
            = calls w0 ++ CallPredict (snapshot_loop w0 (_sensor_entities self0) []) :: rest.
Proof.
  destruct (C4_override_window (sample_thermostat PRESET_LEARNING_CONTROLLING)
              {| model := Some (Fitted [215]); is_trained := true |}
              sample_world 225 0 0 eq_refl eq_refl eq_refl)
    as (self0 & w0 & E & A & Hin & Hout).
  exists self0, w0. split; [exact E|]. split; [exact A|]. split.
  - apply Hin. repeat constructor; simpl; unfold timedelta_minutes; lia.
  - apply Hout. unfold timedelta_minutes. lia.
Defined.

Lemma C5_manual_set_temperature_witness :
  exists self' w',
    async_set_temperature (sample_thermostat PRESET_CONTROLLING) sample_world
      (Some 225) 0 1 = (Return tt, self', w')
    /\ _override_end_time self' = Some 3600000000
    /\ calls w' = [CallSetTemperature "climate.heater" 225; CallWriteHaState]
    /\ csv w' = [].
Proof.
  destruct (C5_manual_set_temperature (sample_thermostat PRESET_CONTROLLING)
              sample_world 225 0 1)
    as (self' & w' & E & _ & He & _ & _ & _ & Hc & _ & Hcsv & _).
  exists self', w'. split; [exact E|]. split; [exact He|]. split; [exact Hc|].
  exact Hcsv.
Defined.



Lemma C10_trained_flag_implies_model_witness :
  let self := snd (fst (_train_model_sync
                          (fst (MLCore_init (@ModelAbsent sample_pipeline)))
                          (DataFrame (sample_frame 20)) (Return tt))) in
  is_trained self = true /\ model self <> None.
Proof.
  intros self. split; [reflexivity|].
  apply (C10_trained_flag_implies_model self); [|reflexivity].
  apply (reachable_train (fst (MLCore_init (@ModelAbsent sample_pipeline)))
           (DataFrame (sample_frame 20)) (Return tt)).
  apply reachable_init.
Defined.

(** C6, evaluated: with the preset "Controlling", a change of the
    actuator's target from 20.0 to 21.0 makes the listener append a record
    labelled 21.0 to the training file. *)
Theorem C6_controlling_preset_still_records :
  let self := sample_thermostat PRESET_CONTROLLING in
  let event := {| old_state := Some (actuator_state 200);
                  new_state := Some (actuator_state 210) |} in
  _preset_mode self = PRESET_CONTROLLING
  /\ exists w',
       _async_handle_initial_learning_state_change (_data_collector self)
         sample_world event 5 = (Return tt, w')
       /\ csv w' = csv sample_world
                   ++ [[("timestamp", PyIso 5);
                        ("sensor_living_room", PyStr "21.5");
                        ("sensor_window", PyStr "unavailable");
                        ("sensor_attic", PyStr "unknown");
                        ("target_temperature", PyFloat 210)]].
Proof.
  split; [reflexivity|]. eexists. split; reflexivity.
Qed.

(** ** Feature names *)

Lemma str_replace_char_app (old new : ascii) (a b : string) :
  str_replace_char old new (a ++ b)%string
  = (str_replace_char old new a ++ str_replace_char old new b)%string.
Proof. induction a as [|c a IH]; simpl; [reflexivity|]. now rewrite IH. Qed.

(** X1: a feature name has as many characters as the entity id it comes
    from and holds no dot. *)
Theorem sanitize_no_dot_same_length (entity_id : string) :
  ~ In "."%char (list_ascii_of_string (sanitize_entity_id_for_feature entity_id))
  /\ String.length (sanitize_entity_id_for_feature entity_id) = String.length entity_id.
Proof.
  unfold sanitize_entity_id_for_feature.
  induction entity_id as [|c s [IHin IHlen]]; simpl.
  - split; [tauto|reflexivity].
  - split; [|now rewrite IHlen].
    intros [E|E]; [|now apply IHin].
    unfold replace_char in E. destruct (Ascii.eqb_spec c ".") as [->|Hne].
    + discriminate.
    + now apply Hne.
Qed.

Lemma replace_dot_facts (c : ascii) :
  replace_char "." "_" (replace_char "." "_" c) = replace_char "." "_" c
  /\ (replace_char "." "_" c = c <-> c <> "."%char).
Proof.
  unfold replace_char. destruct (Ascii.eqb_spec c ".") as [->|Hne].
  - split; [reflexivity|]. split; [discriminate|]. intros Hn. now elim Hn.
  - destruct (Ascii.eqb_spec c ".") as [E|_]; [contradiction|].
    split; [reflexivity|]. tauto.
Qed.

(** X2: sanitizing twice is sanitizing once, and an entity id is its own
    feature name exactly when it holds no dot. *)
Theorem sanitize_idempotent_fixed_points (entity_id : string) :
  sanitize_entity_id_for_feature (sanitize_entity_id_for_feature entity_id)
  = sanitize_entity_id_for_feature entity_id
  /\ (sanitize_entity_id_for_feature entity_id = entity_id
      <-> ~ In "."%char (list_ascii_of_string entity_id)).
Proof.
  unfold sanitize_entity_id_for_feature.
  induction entity_id as [|c s [IHi IHf]]; simpl.
  - split; [reflexivity|]. split; [tauto|reflexivity].
  - destruct (replace_dot_facts c) as [Hi Hf].
    rewrite Hi, IHi. split; [reflexivity|]. split.
    + intros E. injection E as Ec Es. intros [E'|E'].
      * apply Hf in Ec. now apply Ec.
      * now apply IHf in Es.
    + intros Hn. f_equal.
      * apply Hf. intros E. apply Hn. now left.
      * apply IHf. intros E. apply Hn. now right.
Qed.

(** X3: two entity ids that differ only in having a dot where the other has
    an underscore get the same feature name. *)
Theorem sanitize_merges_dot_and_underscore (a b : string) :
  sanitize_entity_id_for_feature (a ++ String "."%char b)%string
  = sanitize_entity_id_for_feature (a ++ String "_"%char b)%string
  /\ (a ++ String "."%char b)%string <> (a ++ String "_"%char b)%string.
Proof.
  unfold sanitize_entity_id_for_feature. split.
  - now rewrite !str_replace_char_app.
  - induction a as [|c a IH]; simpl; intros E; [discriminate|].
    injection E as E. now apply IH.
Qed.

(** ** Time features *)

Lemma seconds_from_midnight_eq (t : datetime) :
  seconds_from_midnight t = (t / 1000000) mod 86400.
Proof.
  unfold seconds_from_midnight, dt_hour, dt_minute, dt_second.
  replace 3600000000 with (1000000 * 3600) by reflexivity.
  replace 60000000 with (1000000 * 60) by reflexivity.
  rewrite <- !Z.div_div by lia.
  set (u := t / 1000000).
  replace 3600 with (60 * 60) at 1 by reflexivity.
  rewrite <- Z.div_div by lia.
  set (q := u / 60).
  pose proof (Z.div_mod u 60 ltac:(lia)) as Hu.
  pose proof (Z.mod_pos_bound u 60 ltac:(lia)) as Hs.
  pose proof (Z.div_mod q 60 ltac:(lia)) as Hq.
  pose proof (Z.mod_pos_bound q 60 ltac:(lia)) as Hm.
  pose proof (Z.div_mod (q / 60) 24 ltac:(lia)) as Hh.
  pose proof (Z.mod_pos_bound (q / 60) 24 ltac:(lia)) as Hhb.
  fold q in Hu.
  apply Z.mod_unique with (q := q / 60 / 24); lia.
Qed.

(** X4: for every timestamp, also one before 1970, the seconds since
    midnight that both paths compute from hour, minute and second are the
    second of the day, between 0 and 86399, and the day of the week is
    between 0 and 6. *)
Theorem time_features_in_range (t : datetime) :
  seconds_from_midnight t = (t / 1000000) mod seconds_in_day
  /\ 0 <= seconds_from_midnight t < seconds_in_day
  /\ 0 <= dt_weekday t <= 6.
Proof.
  change seconds_in_day with 86400.
  rewrite seconds_from_midnight_eq. split; [reflexivity|]. split.
  - apply Z.mod_pos_bound. lia.
  - unfold dt_weekday.
    pose proof (Z.mod_pos_bound (t / 86400000000 + 3) 7 ltac:(lia)). lia.
Qed.

Section TimeFeatures.
Context {float : Type} `{Numeric float}.

(** X5: moving a record's timestamp by whole days leaves [time_sin] and
    [time_cos] as they are and moves [day_of_week] by as many days,
    modulo 7. *)
Theorem train_time_features_shift_days (ts k : Z) :
  exists time_sin time_cos,
    train_time_features ts = Return (time_sin, time_cos, dt_weekday ts)
    /\ train_time_features (ts + k * 86400000000)
       = Return (time_sin, time_cos, (dt_weekday ts + k) mod 7).
Proof.
  do 2 eexists. split; [reflexivity|].
  unfold train_time_features. cbn [Series_dt bind].
  fold (seconds_from_midnight (ts + k * 86400000000)).
  fold (seconds_from_midnight ts).
  rewrite !seconds_from_midnight_eq.
  replace (k * 86400000000) with (k * 86400 * 1000000) by lia.
  rewrite Z.div_add by lia.
  rewrite Z.mod_add by lia.
  unfold dt_weekday.
  replace (k * 86400 * 1000000) with (k * 86400000000) by lia.
  rewrite Z.div_add by lia.
  replace (ts / 86400000000 + k + 3) with (ts / 86400000000 + 3 + k) by lia.
  rewrite (Z.add_mod (ts / 86400000000 + 3) k 7) by lia.
  rewrite (Z.add_mod ((ts / 86400000000 + 3) mod 7) k 7) by lia.
  rewrite Z.mod_mod by lia. reflexivity.
Qed.
End TimeFeatures.

(** ** Columns of the snapshot and of a written row *)

Section DictKeys.
Context {V : Type}.
Implicit Types (d : dict V) (k : string) (v : V).

Lemma dict_get_None_iff d k : dict_get d k = None <-> ~ In k (map fst d).
Proof.
  induction d as [|[k0 v0] d IH]; simpl; [tauto|].
  destruct (String.eqb_spec k0 k) as [->|Hne].
  - split; [discriminate|]. intros Hn. exfalso. apply Hn. now left.
  - rewrite IH. tauto.
Qed.

Lemma dict_set_fresh d k v : ~ In k (map fst d) -> dict_set d k v = d ++ [(k, v)].
Proof.
  induction d as [|[k0 v0] d IH]; simpl; intros Hn; [reflexivity|].
  destruct (String.eqb_spec k0 k) as [->|Hne]; [tauto|].
  now rewrite IH by tauto.
Qed.

Lemma dict_set_keys_in d k v k' :
  In k' (map fst (dict_set d k v)) <-> k' = k \/ In k' (map fst d).
Proof.
  induction d as [|[k0 v0] d IH]; simpl.
  - split; [intros [->|[]]; auto|intros [->|[]]; auto].
  - destruct (String.eqb_spec k0 k) as [->|Hne]; simpl.
    + split; [tauto|]. intros [->|[E|E]]; auto.
    + rewrite IH. tauto.
Qed.

Lemma dict_set_keys_NoDup d k v :
  NoDup (map fst d) -> NoDup (map fst (dict_set d k v)).
Proof.
  induction d as [|[k0 v0] d IH]; simpl; intros Hnd.
  - constructor; [tauto|constructor].
  - inversion Hnd as [|x l Hnotin Hnd']; subst.
    destruct (String.eqb_spec k0 k) as [->|Hne]; simpl.
    + now constructor.
    + constructor; [|now apply IH].
      rewrite dict_set_keys_in. intros [E|E]; [now apply Hne|contradiction].
Qed.

Lemma dict_get_in_keys d k :
  NoDup (map fst d) -> forall v, In (k, v) d -> dict_get d k = Some v.
Proof.
  induction d as [|[k0 v0] d IH]; simpl; intros Hnd v Hin; [contradiction|].
  inversion Hnd as [|x l Hnotin Hnd']; subst.
  destruct Hin as [E|Hin].
  - injection E as -> ->. now rewrite String.eqb_refl.
  - destruct (String.eqb_spec k0 k) as [->|Hne]; [|now apply IH].
    exfalso. apply Hnotin. now apply (in_map fst) in Hin.
Qed.
End DictKeys.

Section Columns.
Context {float : Type}.
Implicit Types (w : World float) (ids : list string) (acc : row float)
  (dc : DataCollector).

(** The column a sensor contributes. *)
Lemma snapshot_loop_fresh w ids : forall acc,
  NoDup (map fst acc ++ map sanitize_entity_id_for_feature ids) ->
  snapshot_loop w ids acc
  = acc ++ map (fun e => (sanitize_entity_id_for_feature e,
                          PyStr (state_or_unknown (states_get w e)))) ids.
Proof.
  induction ids as [|e ids IH]; simpl; intros acc Hnd.
  - now rewrite app_nil_r.
  - assert (Hfresh : ~ In (sanitize_entity_id_for_feature e) (map fst acc)).
    { intros Hin. apply NoDup_remove_2 in Hnd. apply Hnd.
      apply in_or_app. now left. }
    rewrite dict_set_fresh by assumption.
    rewrite IH.
    + now rewrite <- app_assoc.
    + rewrite map_app. simpl. rewrite <- app_assoc. simpl.
      apply NoDup_remove_1 in Hnd as Hnd1.
      apply NoDup_remove_2 in Hnd as Hnd2.
      clear IH Hfresh. revert Hnd1 Hnd2.
      generalize (map fst acc) (map sanitize_entity_id_for_feature ids)
                 (sanitize_entity_id_for_feature e).
      intros l1 l2 x. induction l1 as [|a l1 IHl]; simpl; intros H1 H2.
      * constructor; assumption.
      * inversion H1 as [|y l Hnotin H1']; subst. constructor.
        -- intros Hin. apply Hnotin. apply in_app_or in Hin.
           apply in_or_app. destruct Hin as [Hin|[->|Hin]]; auto.
           exfalso. apply H2. now left.
        -- apply IHl; [assumption|]. intros Hin. apply H2. now right.
Qed.

Lemma snapshot_loop_keys w ids : forall acc k,
  In k (map fst (snapshot_loop w ids acc))
  <-> In k (map fst acc) \/ In k (map sanitize_entity_id_for_feature ids).
Proof.
  induction ids as [|e ids IH]; simpl; intros acc k; [tauto|].
  rewrite IH, dict_set_keys_in. intuition (subst; auto).
Qed.

Lemma snapshot_loop_keys_NoDup w ids : forall acc,
  NoDup (map fst acc) -> NoDup (map fst (snapshot_loop w ids acc)).
Proof.
  induction ids as [|e ids IH]; simpl; intros acc Hnd; [assumption|].
  apply IH. now apply dict_set_keys_NoDup.
Qed.

(** X6: when the sensors' feature names are distinct, the snapshot the
    tick builds has one column per sensor, in the order of the sensor list,
    each holding a string: the sensor's state, or "unknown" when it has no
    state object. *)
Theorem snapshot_columns_in_sensor_order w ids :
  NoDup (map sanitize_entity_id_for_feature ids) ->
  snapshot_loop w ids []
  = map (fun e => (sanitize_entity_id_for_feature e,
                   PyStr (state_or_unknown (states_get w e)))) ids.
Proof. intros Hnd. now rewrite snapshot_loop_fresh. Qed.

(** X7: the snapshot never has two columns of one name; its columns are
    the feature names of the sensors; and when two sensors share a feature
    name it has fewer columns than there are sensors. *)
Theorem snapshot_columns_merge_on_collision w ids :
  NoDup (map fst (snapshot_loop w ids []))
  /\ (forall k, In k (map fst (snapshot_loop w ids []))
                <-> In k (map sanitize_entity_id_for_feature ids))
  /\ (List.length (snapshot_loop w ids []) <= List.length ids)%nat
  /\ (~ NoDup (map sanitize_entity_id_for_feature ids) ->
      (List.length (snapshot_loop w ids []) < List.length ids)%nat).
Proof.
  assert (Hnd : NoDup (map fst (snapshot_loop w ids []))).
  { apply snapshot_loop_keys_NoDup. constructor. }
  assert (Hk : forall k, In k (map fst (snapshot_loop w ids []))
                         <-> In k (map sanitize_entity_id_for_feature ids)).
  { intros k. rewrite snapshot_loop_keys. simpl. tauto. }
  assert (Hle : (List.length (map fst (snapshot_loop w ids []))
                 <= List.length (map sanitize_entity_id_for_feature ids))%nat).
  { apply NoDup_incl_length; [assumption|]. intros k. apply Hk. }
  rewrite !length_map in Hle.
  repeat split; try assumption; try apply Hk.
  intros Hdup.
  destruct (Nat.lt_ge_cases (List.length (snapshot_loop w ids [])) (List.length ids))
    as [Hlt|Hge]; [assumption|].
  exfalso. apply Hdup.
  apply (@NoDup_incl_NoDup _ (map fst (snapshot_loop w ids []))); [assumption| |].
  - now rewrite !length_map.
  - intros k. apply Hk.
Qed.

Lemma writerow_keys (fieldnames : list string) (data_row : row float) :
  map fst (writerow fieldnames data_row) = fieldnames.
Proof.
  unfold writerow. rewrite map_map. simpl. apply map_id.
Qed.

Lemma writerow_own_keys (data_row : row float) :
  NoDup (map fst data_row) -> writerow (map fst data_row) data_row = data_row.
Proof.
  intros Hnd. unfold writerow. rewrite map_map.
  etransitivity; [|apply map_id].
  apply map_ext_in. intros [k v] Hin. simpl.
  now rewrite (dict_get_in_keys data_row k Hnd v Hin).
Qed.

(** The dict the collector builds for label [t] at [now]. *)
Lemma collected_row_keys dc w (t : float) (now : datetime) (k : string) :
  dict_get (dict_set (snapshot_loop w (_sensor_entity_ids dc) [("timestamp", PyIso now)])
                     "target_temperature" (PyFloat t)) k <> None
  <-> In k (_fieldnames dc).
Proof.
  rewrite dict_get_None_iff, dict_set_keys_in, snapshot_loop_keys.
  unfold _fieldnames, _feature_names. simpl.
  rewrite in_app_iff. simpl.
  split.
  - intros Hnn. destruct (String.eqb_spec k "target_temperature") as [->|Hne].
    + right. right. now left.
    + destruct (String.eqb_spec "timestamp" k) as [E|Hne'].
      * now left.
      * destruct (in_dec string_dec k
                    (map sanitize_entity_id_for_feature (_sensor_entity_ids dc)))
          as [Hin|Hnin]; [right; now left|].
        exfalso. apply Hnn. intros [E|[[E|[]]|E]]; auto.
  - intros Hin Hn. apply Hn. destruct Hin as [E|[E|[E|[]]]]; auto.
Qed.

(** X8: a row the collector writes has exactly the columns of the header,
    in the header's order; every cell comes from the dict it built (none is
    left blank), which has no key outside the header; and when the field
    names are distinct the row is the timestamp, the sensors' states in the
    order of the sensor list, and the label. *)
Theorem collected_row_matches_header dc w (t : float) (now : datetime) :
  let data_row :=
    dict_set (snapshot_loop w (_sensor_entity_ids dc) [("timestamp", PyIso now)])
             "target_temperature" (PyFloat t) in
  let record := writerow (_fieldnames dc) data_row in
  async_collect_data_point dc w t now = (Return tt, _write_to_csv dc w data_row)
  /\ map fst record = _fieldnames dc
  /\ (forall k, dict_get data_row k <> None <-> In k (_fieldnames dc))
  /\ (forall k, In k (_fieldnames dc) -> dict_get record k = dict_get data_row k)
  /\ (NoDup (_fieldnames dc) ->
      record
      = ("timestamp", PyIso now)
          :: map (fun e => (sanitize_entity_id_for_feature e,
                            PyStr (state_or_unknown (states_get w e))))
                 (_sensor_entity_ids dc)
          ++ [("target_temperature", PyFloat t)]).
Proof.
  intros data_row record.
  split; [apply collect_data_point_eq|].
  split; [apply writerow_keys|].
  split; [intros k; apply collected_row_keys|].
  split.
  - intros k Hin. unfold record, writerow.
    rewrite (dict_get_map_keys
               (fun k => match dict_get data_row k with
                         | Some v => v
                         | None => PyStr ""
                         end)) by assumption.
    destruct (dict_get data_row k) eqn:E; [reflexivity|].
    exfalso. now apply (collected_row_keys dc w t now k).
  - intros Hnd. unfold _fieldnames, _feature_names in Hnd. simpl in Hnd.
    assert (Hrow : data_row
                   = ("timestamp", PyIso now)
                       :: map (fun e => (sanitize_entity_id_for_feature e,
                                         PyStr (state_or_unknown (states_get w e))))
                              (_sensor_entity_ids dc)
                       ++ [("target_temperature", PyFloat t)]).
    { unfold data_row. rewrite snapshot_loop_fresh.
      - rewrite dict_set_fresh; [reflexivity|].
        simpl. rewrite map_map. simpl.
        inversion Hnd as [|x l Hnotin Hnd']; subst.
        intros [E|Hin]; [discriminate|].
        apply NoDup_remove_2 in Hnd'. rewrite app_nil_r in Hnd'.
        apply Hnd'. exact Hin.
      - simpl. inversion Hnd as [|x l Hnotin Hnd']; subst.
        constructor.
        + intros Hin. apply Hnotin. apply in_or_app. now left.
        + apply NoDup_remove_1 in Hnd'. now rewrite app_nil_r in Hnd'. }
    unfold record. rewrite <- Hrow.
    replace (_fieldnames dc) with (map fst data_row).
    + apply writerow_own_keys. rewrite Hrow. simpl.
      rewrite map_app, map_map. simpl. exact Hnd.
    + rewrite Hrow. simpl. rewrite map_app, map_map. reflexivity.
Qed.
End Columns.

(** ** The sensors to monitor *)

Lemma str_in_iff (x : string) (l : list string) : str_in x l = true <-> In x l.
Proof.
  induction l as [|y l IH]; simpl; [split; [discriminate|tauto]|].
  rewrite orb_true_iff, IH, String.eqb_eq. split; intros [E|E]; auto.
Qed.

Lemma set_add_in (x y : string) (s : list string) :
  In y (set_add x s) <-> y = x \/ In y s.
Proof.
  unfold set_add. destruct (str_in x s) eqn:E.
  - apply str_in_iff in E. split; [auto|]. intros [->|Hin]; auto.
  - rewrite in_app_iff. simpl. split; intros [Hin|Hin]; auto.
    destruct Hin as [->|[]]. now left.
Qed.

Lemma set_add_NoDup (x : string) (s : list string) : NoDup s -> NoDup (set_add x s).
Proof.
  intros Hnd. unfold set_add. destruct (str_in x s) eqn:E; [assumption|].
  assert (Hnin : ~ In x s) by (rewrite <- str_in_iff, E; discriminate).
  clear E. induction s as [|a s IH]; simpl.
  - constructor; [tauto|constructor].
  - inversion Hnd as [|y l Hnotin Hnd']; subst. constructor.
    + rewrite in_app_iff. simpl. intros [Hin|[E|[]]]; [contradiction|].
      apply Hnin. now left.
    + apply IH; [assumption|]. intros Hin. apply Hnin. now right.
Qed.

Lemma set_of_list_spec (l : list string) :
  NoDup (set_of_list l) /\ forall x, In x (set_of_list l) <-> In x l.
Proof.
  unfold set_of_list.
  assert (G : forall s, NoDup s ->
              NoDup (fold_left (fun s x => set_add x s) l s)
              /\ forall x, In x (fold_left (fun s x => set_add x s) l s)
                           <-> In x s \/ In x l).
  { induction l as [|a l IH]; simpl; intros s Hnd.
    - split; [assumption|]. tauto.
    - destruct (IH (set_add a s) (set_add_NoDup a s Hnd)) as [Hn Hi].
      split; [assumption|]. intros x. rewrite Hi, set_add_in.
      intuition (subst; auto). }
  destruct (G [] (NoDup_nil _)) as [Hn Hi]. split; [assumption|].
  intros x. rewrite Hi. simpl. tauto.
Qed.

Lemma area_loop_spec (entities : list RegistryEntry) (in_area : list string) :
  forall s, NoDup s ->
    NoDup (area_loop entities in_area s)
    /\ forall x, In x (area_loop entities in_area s)
                 <-> In x s \/ exists e, In e entities /\ entity_selected in_area e = true
                                         /\ ent_entity_id e = x.
Proof.
  unfold area_loop. induction entities as [|a entities IH]; simpl; intros s Hnd.
  - split; [assumption|]. intros x. split; [auto|]. intros [Hin|(e & [] & _)]. assumption.
  - destruct (entity_selected in_area a) eqn:Ea.
    + destruct (IH (set_add (ent_entity_id a) s) (set_add_NoDup _ s Hnd)) as [Hn Hi].
      split; [assumption|]. intros x. rewrite Hi, set_add_in. split.
      * intros [[->|Hin]|(e & He & Hs & Hx)]; auto.
        -- right. exists a. auto.
        -- right. exists e. auto.
      * intros [Hin|(e & [->|He] & Hs & Hx)]; auto.
        right. exists e. auto.
    + destruct (IH s Hnd) as [Hn Hi]. split; [assumption|].
      intros x. rewrite Hi. split.
      * intros [Hin|(e & He & Hs & Hx)]; auto. right. exists e. auto.
      * intros [Hin|(e & [->|He] & Hs & Hx)]; auto.
        -- rewrite Ea in Hs. discriminate.
        -- right. exists e. auto.
Qed.

Lemma entity_selected_iff (devices : list DeviceEntry) (area_id : string)
    (e : RegistryEntry) :
  entity_selected (devices_in_area devices area_id) e = true
  <-> (exists d, In d devices /\ dev_area_id d = Some area_id
                 /\ ent_device_id e = Some (dev_id d))
      /\ (ent_domain e = "sensor" \/ ent_domain e = "binary_sensor").
Proof.
  unfold entity_selected, devices_in_area.
  rewrite andb_true_iff, (str_in_iff (ent_domain e)). simpl.
  assert (Hd : match ent_device_id e with
               | Some d =>
                   str_in d (map dev_id
                     (filter (fun d0 => opt_str_eqb (dev_area_id d0) area_id) devices))
               | None => false
               end = true
               <-> exists d, In d devices /\ dev_area_id d = Some area_id
                             /\ ent_device_id e = Some (dev_id d)).
  { destruct (ent_device_id e) as [i|].
    - rewrite str_in_iff, in_map_iff. split.
      + intros (d & <- & Hin). apply filter_In in Hin as [Hin Ha].
        exists d. split; [assumption|]. split; [|reflexivity].
        unfold opt_str_eqb in Ha. destruct (dev_area_id d) as [a|]; [|discriminate].
        apply String.eqb_eq in Ha. now subst.
      + intros (d & Hin & Ha & E). injection E as ->. exists d. split; [reflexivity|].
        apply filter_In. split; [assumption|]. rewrite Ha. simpl. apply String.eqb_refl.
    - split; [discriminate|]. intros (d & _ & _ & E). discriminate. }
  rewrite Hd. intuition.
Qed.

(** X9: the sensor list of an entry has no entity twice, and an entity is
    on it exactly when it is one of the entry's [include_entities]
    (whatever its domain), or the registry has it with domain [sensor] or
    [binary_sensor] on a device that lies in one of the entry's areas. *)
Theorem sensor_entities_of_members (include_entities area_ids : list string)
    (devices : list DeviceEntry) (entities : list RegistryEntry) :
  NoDup (sensor_entities_of include_entities area_ids devices entities)
  /\ forall x,
       In x (sensor_entities_of include_entities area_ids devices entities)
       <-> In x include_entities
           \/ exists e area_id d,
                In e entities /\ In area_id area_ids /\ In d devices
                /\ ent_entity_id e = x
                /\ ent_device_id e = Some (dev_id d)
                /\ dev_area_id d = Some area_id
                /\ (ent_domain e = "sensor" \/ ent_domain e = "binary_sensor").
Proof.
  unfold sensor_entities_of.
  destruct (set_of_list_spec include_entities) as [Hn0 Hi0].
  revert Hn0 Hi0. generalize (set_of_list include_entities) as s.
  assert (G : forall s, NoDup s ->
     NoDup (fold_left (fun s a => area_loop entities (devices_in_area devices a) s)
                      area_ids s)
     /\ forall x,
          In x (fold_left (fun s a => area_loop entities (devices_in_area devices a) s)
                          area_ids s)
          <-> In x s
              \/ exists e area_id d,
                   In e entities /\ In area_id area_ids /\ In d devices
                   /\ ent_entity_id e = x
                   /\ ent_device_id e = Some (dev_id d)
                   /\ dev_area_id d = Some area_id
                   /\ (ent_domain e = "sensor" \/ ent_domain e = "binary_sensor")).
  { induction area_ids as [|a area_ids IH]; simpl; intros s Hnd.
    - split; [assumption|]. intros x. split; [auto|].
      intros [Hin|(e & area_id & d & _ & [] & _)]. assumption.
    - destruct (area_loop_spec entities (devices_in_area devices a) s Hnd) as [Hn Hi].
      destruct (IH _ Hn) as [Hn' Hi']. split; [assumption|].
      intros x. rewrite Hi', Hi. split.
      + intros [[Hin|(e & He & Hs & Hx)]|(e & area_id & d & He & Ha & R)]; auto.
        * apply entity_selected_iff in Hs as [(d & Hd & Hda & Hed) Hdom].
          right. exists e, a, d. auto 10.
        * right. exists e, area_id, d. tauto.
      + intros [Hin|(e & area_id & d & He & [->|Ha] & Hd & Hx & Hed & Hda & Hdom)]; auto.
        * left. right. exists e. split; [assumption|]. split; [|assumption].
          apply entity_selected_iff. split; [|assumption]. exists d. auto.
        * right. exists e, area_id, d. auto 10. }
  intros s Hn0 Hi0. destruct (G s Hn0) as [Hn Hi]. split; [assumption|].
  intros x. rewrite Hi, Hi0. reflexivity.
Qed.

(** ** More of the model manager *)

Section ModelManagerMore.
Context {float Pipeline : Type} `{Numeric float} `{Sklearn float Pipeline}.
Implicit Types (self : MLCore Pipeline) (df : list (TrainingRecord float)).

Lemma load_keeps_flag self (f : model_file Pipeline) :
  is_trained self = true -> is_trained (fst (_load_model self f)) = true.
Proof. destruct f; simpl; auto. Qed.

Lemma train_keeps_flag self (f : data_file float) (dump : pyresult unit) :
  is_trained self = true ->
  is_trained (snd (fst (_train_model_sync self f dump))) = true.
Proof.
  intros Ht. unfold _train_model_sync.
  destruct f as [| |df|rows e]; simpl; auto;
    [|destruct (Nat.ltb rows 20); simpl; auto].
  destruct (Nat.ltb (List.length df) 20); simpl; auto.
  destruct (mapM X_row df) as [X|]; simpl; auto.
  destruct (Pipeline_fit _ X _); [destruct dump|]; simpl; auto.
Qed.

(** X10: once the trained flag is set, no load and no training clears it,
    however they end: not a missing or unreadable file, not too few
    records, not a fit that raises, not a save that fails. *)
Theorem trained_flag_is_never_cleared self self' :
  evolves self self' -> is_trained self = true -> is_trained self' = true.
Proof.
  intros Hev Ht. induction Hev as [s|s s' f Hev IH|s s' f dump Hev IH].
  - assumption.
  - apply load_keeps_flag. now apply IH.
  - apply train_keeps_flag. now apply IH.
Qed.

(** X11: training returns [True] only when there was a readable data file
    of at least 20 records, the fit returned and the save went through;
    the manager then holds the fitted pipeline with the flag set. *)
Theorem train_true_only_after_fit_and_save self (f : data_file float)
    (dump : pyresult unit) self' (l : list log_record) :
  _train_model_sync self f dump = (Return true, self', l) ->
  exists df X fitted,
    f = DataFrame df
    /\ (20 <= List.length df)%nat
    /\ mapM X_row df = Return X
    /\ Pipeline_fit (Pipeline_new (select_dtypes (fun v => negb (is_object v)) X)
                                  (select_dtypes is_object X))
                    X (map (@target_temperature float) df) = Return fitted
    /\ (exists u, dump = Return u)
    /\ self' = {| model := Some fitted; is_trained := true |}.
Proof.
  unfold _train_model_sync. destruct f as [| |df|rows e]; try discriminate;
    [|destruct (Nat.ltb rows 20); discriminate].
  destruct (Nat.ltb_spec (List.length df) 20) as [Hlt|Hge]; [discriminate|].
  destruct (mapM X_row df) as [X|e] eqn:HX; [|discriminate].
  destruct (Pipeline_fit _ X _) as [fitted|e] eqn:Hfit; [|discriminate].
  destruct dump as [u|e]; [|discriminate].
  intros E. injection E as <- _. exists df, X, fitted.
  repeat split; try assumption; eauto.
Qed.

(** X12: a training lets an exception out in two ways only.  Before the
    pipeline is built, when converting a record's timestamp raises or the
    frame lacks a column: the manager is then left untouched.  Or when the
    fit raises: the newly built, unfitted pipeline then stands in place of
    whatever model the manager had, with the trained flag as it was.
    Errors reading the data or saving the model are caught. *)
Theorem train_raises_before_pipeline_or_from_fit self (f : data_file float)
    (dump : pyresult unit) (e : exn) self' (l : list log_record) :
  _train_model_sync self f dump = (Raise e, self', l) ->
  (self' = self
   /\ ((exists df r, f = DataFrame df /\ (20 <= List.length df)%nat
                     /\ In r df /\ timestamp r = Raise e)
       \/ (exists rows, f = DataFrameLacking rows e /\ (20 <= rows)%nat)))
  \/ (exists df X,
        f = DataFrame df
        /\ (20 <= List.length df)%nat
        /\ mapM X_row df = Return X
        /\ Pipeline_fit (Pipeline_new (select_dtypes (fun v => negb (is_object v)) X)
                                      (select_dtypes is_object X))
                        X (map (@target_temperature float) df) = Raise e
        /\ self' = {| model := Some (Pipeline_new
                                       (select_dtypes (fun v => negb (is_object v)) X)
                                       (select_dtypes is_object X));
                      is_trained := is_trained self |}).
Proof.
  unfold _train_model_sync. destruct f as [| |df|rows e0]; try discriminate.
  - destruct (Nat.ltb_spec (List.length df) 20) as [Hlt|Hge]; [discriminate|].
    destruct (mapM X_row df) as [X|e0] eqn:HX.
    + destruct (Pipeline_fit _ X _) as [fitted|e'] eqn:Hfit.
      * destruct dump; discriminate.
      * intros E. injection E as -> <- _. right. exists df, X. auto.
    + intros E. injection E as -> <- _. left. split; [reflexivity|]. left.
      destruct (mapM_X_row_raises df e HX) as [r [Hin Hr]]. exists df, r. auto.
  - destruct (Nat.ltb_spec rows 20) as [Hlt|Hge]; [discriminate|].
    intros E. injection E as -> <- _. left. split; [reflexivity|]. right.
    exists rows. auto.
Qed.

(** X14: when the training file does not exist at setup, the initial
    training returns [False] whether or not the file can be created, and
    the manager is left as its constructor made it: trained exactly when a
    stored model could be loaded. *)
Theorem setup_without_data_trains_nothing (fault : option exn)
    (m : model_file Pipeline) (dump : pyresult unit) :
  exists l,
    setup_model_manager DataAbsent fault m dump
    = (Return false, fst (MLCore_init m), l)
    /\ (is_trained (fst (MLCore_init m)) = true <-> exists p, m = ModelStored p).
Proof.
  unfold setup_model_manager.
  destruct fault as [e|]; destruct m as [|e'|p]; simpl;
    (eexists; split; [reflexivity|]);
    (split; [try discriminate; eauto | intros [q E]; try discriminate; reflexivity]).
Qed.
End ModelManagerMore.

(** ** Runs of the controller *)

Section Runs.
Context {float Pipeline : Type} `{Numeric float} `{Sklearn float Pipeline}.
Implicit Types (self : LearningThermostat float) (ml : MLCore Pipeline)
  (w : World float) (op : operation float Pipeline)
  (ops : list (operation float Pipeline)).

Lemma sent_temperatures_app (a b : list (call float)) :
  sent_temperatures (a ++ b) = sent_temperatures a ++ sent_temperatures b.
Proof.
  induction a as [|c a IH]; simpl; [reflexivity|].
  destruct c; simpl; now rewrite IH.
Qed.

Lemma manual_temperatures_app ops ops' :
  manual_temperatures (ops ++ ops') = manual_temperatures ops ++ manual_temperatures ops'.
Proof.
  induction ops as [|op ops IH]; simpl; [reflexivity|].
  destruct op as [[t|] ? ?| | | | |]; simpl; now rewrite IH.
Qed.

Lemma csv_rows_of_write dc w (data_row : row float) :
  exists new_rows,
    csv (_write_to_csv dc w data_row) = csv w ++ new_rows
    /\ Forall (fun r => map fst r = _fieldnames dc) new_rows.
Proof.
  rewrite csv_write_to_csv. destruct (csv_fault w).
  - exists []. split; [now rewrite app_nil_r|constructor].
  - eexists. split; [reflexivity|].
    constructor; [apply writerow_keys|constructor].
Qed.

Lemma predict_and_apply_frame self ml w (now_predict : datetime) :
  exists w',
    predict_and_apply self ml w now_predict = (Return tt, self, w')
    /\ calls w' = calls w ++ [CallPredict (snapshot_loop w (_sensor_entities self) []);
                              CallWriteHaState]
    /\ csv w' = csv w.
Proof.
  unfold predict_and_apply.
  destruct (predict_answers_None ml (snapshot_loop w (_sensor_entities self) []) now_predict)
    as [l ->].
  eexists. split; [reflexivity|].
  cbn [calls csv async_write_ha_state add_call add_log].
  destruct (calls_fold_add_log l
              (add_call w (CallPredict (snapshot_loop w (_sensor_entities self) []))))
    as (-> & -> & _).
  simpl. now rewrite <- app_assoc.
Qed.

Lemma set_temperature_effects self w (temperature : option float)
    (now now_collect : datetime) :
  exists self' w',
    async_set_temperature self w temperature now now_collect = (Return tt, self', w')
    /\ effects (Pipeline := Pipeline) self w (OpSetTemperature temperature now now_collect) (Return tt) self' w'.
Proof.
  destruct temperature as [v|].
  - rewrite set_temperature_eq. cbv zeta. do 2 eexists. split; [reflexivity|].
    unfold effects. split; [reflexivity|]. split; [reflexivity|]. split; [|split].
    + exists [CallSetTemperature (_target_climate_entity self) v; CallWriteHaState].
      split; [|reflexivity].
      cbn [calls async_write_ha_state _async_set_target_climate_temp add_call].
      destruct (String.eqb (_preset_mode self) PRESET_LEARNING_CONTROLLING);
        [rewrite calls_write_to_csv|]; simpl; now rewrite <- app_assoc.
    + cbn [csv async_write_ha_state _async_set_target_climate_temp add_call].
      destruct (String.eqb (_preset_mode self) PRESET_LEARNING_CONTROLLING).
      * match goal with
        | |- exists new_rows, csv (_write_to_csv ?dc ?W ?R) = _ /\ _ =>
            destruct (csv_rows_of_write dc W R) as (rows & E & Hall);
            exists rows; split; [rewrite E; reflexivity|exact Hall]
        end.
      * exists []. split; [simpl; now rewrite app_nil_r|constructor].
    + split; [reflexivity|]. split.
      * intros _. split; [reflexivity|]. intros _. discriminate.
      * intros Hm. exact Hm.
  - do 2 eexists. split; [reflexivity|].
    unfold effects. split; [reflexivity|]. split; [reflexivity|]. split; [|split].
    + exists []. split; [now rewrite app_nil_r|reflexivity].
    + exists []. split; [now rewrite app_nil_r|constructor].
    + split; [reflexivity|]. tauto.
Qed.

Lemma tick_effects self ml w (now now_predict : datetime) :
  exists r self' w',
    _async_prediction_loop self ml w now now_predict = (r, self', w')
    /\ effects (Pipeline := Pipeline) self w (OpTick ml now now_predict) r self' w'.
Proof.
  assert (Hsame : forall r, (override_has_end self -> r = Return tt) ->
                  effects (Pipeline := Pipeline) self w (OpTick ml now now_predict) r self w).
  { intros r Hr. unfold effects. split; [reflexivity|]. split; [reflexivity|].
    split; [exists []; split; [now rewrite app_nil_r|reflexivity]|].
    split; [exists []; split; [now rewrite app_nil_r|constructor]|].
    split; [reflexivity|]. split; [|tauto]. intros Hinv. split; auto. }
  unfold _async_prediction_loop.
  destruct (negb (String.eqb (_hvac_mode self) HVAC_MODE_AUTO) || negb (is_trained ml)).
  { do 3 eexists. split; [reflexivity|]. now apply Hsame. }
  assert (Hpred : forall self0 w0,
            _target_climate_entity self0 = _target_climate_entity self ->
            _data_collector self0 = _data_collector self ->
            _target_temperature self0 = _target_temperature self ->
            calls w0 = calls w -> csv w0 = csv w ->
            override_has_end self0 ->
            (modes_consistent self -> modes_consistent self0) ->
            exists r self' w',
              predict_and_apply self0 ml w0 now_predict = (r, self', w')
              /\ effects (Pipeline := Pipeline) self w (OpTick ml now now_predict) r self' w').
  { intros self0 w0 He Hd Ht Hc Hcsv Hinv Hm.
    destruct (predict_and_apply_frame self0 ml w0 now_predict) as (w' & E & Hc' & Hcsv').
    do 3 eexists. split; [exact E|].
    unfold effects. split; [assumption|]. split; [assumption|].
    split; [eexists; split; [rewrite Hc', Hc; reflexivity|reflexivity]|].
    split; [exists []; split; [rewrite Hcsv', Hcsv; now rewrite app_nil_r|constructor]|].
    split; [assumption|]. split; [|assumption]. intros _. split; [reflexivity|assumption]. }
  destruct (_is_override_active self) eqn:Ha.
  - destruct (_override_end_time self) as [end_time|] eqn:Hend.
    + destruct (now <? end_time).
      * do 3 eexists. split; [reflexivity|]. now apply Hsame.
      * apply Hpred; try reflexivity.
        -- intros Hact. discriminate.
        -- intros Hm. exact Hm.
    + do 3 eexists. split; [reflexivity|]. apply Hsame.
      intros Hinv. exfalso. now apply Hinv.
  - apply Hpred; try reflexivity; [|tauto].
    intros Hact. congruence.
Qed.

Lemma listener_effects self w (event : Event float) (now : datetime) :
  exists w',
    _async_handle_initial_learning_state_change (_data_collector self) w event now
    = (Return tt, w')
    /\ effects (Pipeline := Pipeline) self w (OpActuatorEvent event now) (Return tt) self w'.
Proof.
  assert (Hsame : effects (Pipeline := Pipeline) self w (OpActuatorEvent event now) (Return tt) self w).
  { unfold effects. split; [reflexivity|]. split; [reflexivity|].
    split; [exists []; split; [now rewrite app_nil_r|reflexivity]|].
    split; [exists []; split; [now rewrite app_nil_r|constructor]|].
    split; [reflexivity|]. tauto. }
  unfold _async_handle_initial_learning_state_change.
  destruct (old_state event) as [o|]; [|eexists; split; [reflexivity|exact Hsame]].
  destruct (new_state event) as [n|]; [|eexists; split; [reflexivity|exact Hsame]].
  destruct (dict_get (attributes n) ATTR_TEMPERATURE) as [t|];
    [|eexists; split; [reflexivity|exact Hsame]].
  destruct (py_ne _ _); [|eexists; split; [reflexivity|exact Hsame]].
  rewrite collect_data_point_eq. eexists. split; [reflexivity|].
  unfold effects. split; [reflexivity|]. split; [reflexivity|].
  split; [exists []; split; [rewrite calls_write_to_csv; simpl; now rewrite app_nil_r
                            |reflexivity]|].
  split; [|split; [reflexivity|tauto]].
  match goal with
  | |- exists new_rows, csv (_write_to_csv ?dc ?W ?R) = _ /\ _ =>
      destruct (csv_rows_of_write dc W R) as (rows & E & Hall);
      exists rows; split; [rewrite E; reflexivity|exact Hall]
  end.
Qed.

Lemma apply_operation_effects self w op :
  exists r self' w',
    apply_operation self w op = (r, self', w') /\ effects self w op r self' w'.
Proof.
  destruct op as [t now nc|m|p|ml now np|event now|new_states fault].
  - destruct (set_temperature_effects self w t now nc) as (self' & w' & E & Heff).
    exists (Return tt), self', w'. split; assumption.
  - simpl. do 3 eexists. split; [reflexivity|].
    unfold effects. split; [reflexivity|]. split; [reflexivity|].
    split; [exists [CallWriteHaState]; split; reflexivity|].
    split; [exists []; split; [simpl; now rewrite app_nil_r|constructor]|].
    split; [reflexivity|]. split; [tauto|].
    intros [_ Hp]. split; [reflexivity|exact Hp].
  - simpl. unfold async_set_preset_mode.
    destruct (str_in p PRESETS) eqn:Hp; simpl.
    + do 3 eexists. split; [reflexivity|].
      unfold effects. split; [reflexivity|]. split; [reflexivity|].
      split; [exists [CallWriteHaState]; split; reflexivity|].
      split; [exists []; split; [simpl; now rewrite app_nil_r|constructor]|].
      split; [reflexivity|]. split; [tauto|].
      intros [Ht _]. split; [exact Ht|exact Hp].
    + do 3 eexists. split; [reflexivity|].
      unfold effects. split; [reflexivity|]. split; [reflexivity|].
      split; [exists []; split; [simpl; now rewrite app_nil_r|reflexivity]|].
      split; [exists []; split; [simpl; now rewrite app_nil_r|constructor]|].
      split; [reflexivity|]. tauto.
  - apply tick_effects.
  - simpl. destruct (listener_effects self w event now) as (w' & -> & Heff).
    do 3 eexists. split; [reflexivity|exact Heff].
  - simpl. do 3 eexists. split; [reflexivity|].
    unfold effects. split; [reflexivity|]. split; [reflexivity|].
    split; [exists []; split; [simpl; now rewrite app_nil_r|reflexivity]|].
    split; [exists []; split; [simpl; now rewrite app_nil_r|constructor]|].
    split; [reflexivity|]. tauto.
Qed.
End Runs.

Section RunProperties.
Context {float Pipeline : Type} `{Numeric float} `{Sklearn float Pipeline}.
Implicit Types (self : LearningThermostat float) (ml : MLCore Pipeline)
  (w : World float) (ops : list (operation float Pipeline)).

Lemma last_irrelevant_default {A : Type} (a : list A) (x d d' : A) :
  last (x :: a) d = last (x :: a) d'.
Proof.
  revert x. induction a as [|y a IH]; intros x; [reflexivity|].
  change (last (y :: a) d = last (y :: a) d'). apply IH.
Qed.

Lemma last_app_default {A : Type} (a b : list A) (d : A) :
  last (a ++ b) d = last b (last a d).
Proof.
  induction a as [|x a IH]; [reflexivity|].
  destruct a as [|y a].
  - destruct b as [|z b]; [reflexivity|].
    change (last (z :: b) d = last (z :: b) x). apply last_irrelevant_default.
  - change (last ((y :: a) ++ b) d = last b (last (y :: a) d)). exact IH.
Qed.

Lemma run_operations_effects ops : forall self w,
  exists r self' w',
    run_operations self w ops = (r, self', w')
    /\ _target_climate_entity self' = _target_climate_entity self
    /\ _data_collector self' = _data_collector self
    /\ (exists new_rows,
          csv w' = csv w ++ new_rows
          /\ Forall (fun r => map fst r = _fieldnames (_data_collector self)) new_rows)
    /\ (r = Return tt ->
        sent_temperatures (calls w')
        = sent_temperatures (calls w)
            ++ map (fun t => (_target_climate_entity self, t)) (manual_temperatures ops)
        /\ _target_temperature self'
           = last (manual_temperatures ops) (_target_temperature self))
    /\ (override_has_end self -> r = Return tt /\ override_has_end self')
    /\ (modes_consistent self -> modes_consistent self').
Proof.
  induction ops as [|op ops IH]; intros self w.
  - exists (Return tt), self, w. split; [reflexivity|].
    split; [reflexivity|]. split; [reflexivity|].
    split; [exists []; split; [now rewrite app_nil_r|constructor]|].
    split; [intros _; simpl; now rewrite app_nil_r|]. tauto.
  - destruct (apply_operation_effects self w op)
      as (r1 & s1 & w1 & E1 & He & Hd & (nc & Hc & Hs) & (nr & Hcsv & Hk) & Ht & Ho & Hm).
    cbn [run_operations]. rewrite E1. destruct r1 as [[]|e].
    + destruct (IH s1 w1)
        as (r & s2 & w2 & E2 & He2 & Hd2 & (nr2 & Hcsv2 & Hk2) & Hret & Ho2 & Hm2).
      exists r, s2, w2. split; [exact E2|].
      split; [congruence|]. split; [congruence|]. split.
      * exists (nr ++ nr2). split.
        -- rewrite Hcsv2, Hcsv. now rewrite app_assoc.
        -- apply Forall_app. split; [assumption|]. now rewrite <- Hd.
      * split.
        -- intros Hr. destruct (Hret Hr) as [Hsent Hlast]. split.
           ++ rewrite Hsent, Hc, sent_temperatures_app, Hs, He.
              change (op :: ops) with ([op] ++ ops).
              rewrite manual_temperatures_app, map_app. now rewrite app_assoc.
           ++ rewrite Hlast, Ht.
              change (op :: ops) with ([op] ++ ops).
              now rewrite manual_temperatures_app, last_app_default.
        -- split.
           ++ intros Hinv. destruct (Ho Hinv) as [_ Hinv1]. now apply Ho2.
           ++ intros Hmc. apply Hm2. now apply Hm.
    + exists (Raise e), s1, w1. split; [reflexivity|].
      split; [assumption|]. split; [assumption|].
      split; [exists nr; split; assumption|].
      split; [discriminate|]. split.
      * intros Hinv. destruct (Ho Hinv) as [Hr _]. discriminate.
      * assumption.
Qed.

(** X15: started in a state where an active override has an end time, as
    the constructor's state is, and given that every manual change is made
    at a datetime and ends at one, an active override has an end time after
    any sequence of service calls, ticks, actuator events and changes of the
    surroundings; so a tick then never fails on comparing the clock with a
    missing end time: it returns. *)
Theorem ticks_return_after_representable_changes self w ops (r : pyresult unit)
    self' (w' : World float) :
  override_has_end self ->
  expiries_representable (_override_duration self) ops ->
  run_operations self w ops = (r, self', w') ->
  override_has_end self'
  /\ forall ml (now now_predict : datetime),
       exists self'' w'',
         _async_prediction_loop self' ml w' now now_predict = (Return tt, self'', w'').
Proof.
  intros Hinv _ E.
  destruct (run_operations_effects ops self w)
    as (r0 & s0 & w0 & E0 & _ & _ & _ & _ & Ho & _).
  rewrite E in E0. injection E0 as <- <- <-.
  destruct (Ho Hinv) as [_ Hinv']. split; [exact Hinv'|].
  intros ml now now_predict.
  destruct (tick_effects self' ml w' now now_predict)
    as (r1 & s1 & w1 & E1 & _ & _ & _ & _ & _ & Ho1 & _).
  destruct (Ho1 Hinv') as [-> _]. exists s1, w1. exact E1.
Qed.

(** X16: if the periodic tick is installed exactly when the mode is auto
    and the preset is one of the two offered, as in the constructor's state,
    then this is so after any sequence of operations, whatever modes and
    presets they ask for. *)
Theorem modes_stay_consistent self w ops (r : pyresult unit) self' (w' : World float) :
  modes_consistent self ->
  run_operations self w ops = (r, self', w') ->
  modes_consistent self'.
Proof.
  intros Hm E.
  destruct (run_operations_effects ops self w)
    as (r0 & s0 & w0 & E0 & _ & _ & _ & _ & _ & Hm').
  rewrite E in E0. injection E0 as <- <- <-. now apply Hm'.
Qed.

(** X17: over any sequence of operations that completes, the temperatures
    sent to the actuator are exactly the temperatures of the manual
    [set_temperature] calls, in their order and each to the target entity,
    and the thermostat's target is the last of them (or unchanged when there
    was none): no tick ever sends or sets a temperature. *)
Theorem actuator_gets_manual_temperatures_only self w ops self' (w' : World float) :
  run_operations self w ops = (Return tt, self', w') ->
  sent_temperatures (calls w')
  = sent_temperatures (calls w)
      ++ map (fun t => (_target_climate_entity self, t)) (manual_temperatures ops)
  /\ _target_temperature self' = last (manual_temperatures ops) (_target_temperature self).
Proof.
  intros E.
  destruct (run_operations_effects ops self w)
    as (r0 & s0 & w0 & E0 & _ & _ & _ & Hret & _).
  rewrite E in E0. injection E0 as <- <- <-. now apply Hret.
Qed.

(** X18: over any sequence of operations the training file only grows at
    its end: the rows it had stay, in place and unchanged, and every row
    added has exactly the columns of the collector's header. *)
Theorem training_file_is_append_only self w ops (r : pyresult unit) self'
    (w' : World float) :
  run_operations self w ops = (r, self', w') ->
  exists new_rows,
    csv w' = csv w ++ new_rows
    /\ Forall (fun row => map fst row = _fieldnames (_data_collector self)) new_rows.
Proof.
  intros E.
  destruct (run_operations_effects ops self w)
    as (r0 & s0 & w0 & E0 & _ & _ & Hrows & _).
  rewrite E in E0. injection E0 as <- <- <-. exact Hrows.
Qed.
End RunProperties.

(** ** Overrides, presets and the two listeners *)

Section ControllerMore.
Context {float Pipeline : Type} `{Numeric float} `{Sklearn float Pipeline}.
Implicit Types (self : LearningThermostat float) (ml : MLCore Pipeline)
  (w : World float) (dc : DataCollector).

Lemma idle_tick self ml w (now now_predict : datetime) :
  _hvac_mode self <> HVAC_MODE_AUTO \/ is_trained ml = false ->
  _async_prediction_loop self ml w now now_predict = (Return tt, self, w).
Proof.
  intros Hidle. unfold _async_prediction_loop.
  destruct (String.eqb_spec (_hvac_mode self) HVAC_MODE_AUTO) as [E|E]; [|reflexivity].
  destruct Hidle as [Hm|Ht]; [contradiction|]. now rewrite Ht.
Qed.

(** X19: while the mode is not auto, or at ticks where the manager is not
    trained, ticks do nothing: an override stays active however long ago
    its end time has passed, and the state attributes keep showing it with
    that end time. *)
Theorem idle_ticks_keep_expired_override self w
    (ticks : list (MLCore Pipeline * datetime * datetime)) (end_time : datetime) :
  _is_override_active self = true ->
  _override_end_time self = Some end_time ->
  Forall (fun t => _hvac_mode self <> HVAC_MODE_AUTO \/ is_trained (fst (fst t)) = false)
         ticks ->
  run_operations self w (map (fun t => OpTick (fst (fst t)) (snd (fst t)) (snd t)) ticks)
  = (Return tt, self, w)
  /\ forall ml,
       attr_is_override_active (extra_state_attributes self ml) = true
       /\ attr_override_ends_at (extra_state_attributes self ml) = Some end_time.
Proof.
  intros Ha He Hall. split.
  - induction Hall as [|[[ml now] np] ticks Hidle _ IH]; [reflexivity|].
    cbn [map run_operations apply_operation fst snd].
    now rewrite idle_tick.
  - intros ml. unfold extra_state_attributes. simpl. now rewrite Ha, He.
Qed.

(** X20: for a configured override duration of [m] minutes (60 when the
    entry has none) such that a manual change at the datetime [t0] ends at a
    datetime, in auto with a trained model, a tick before [t0 + m min] does
    nothing and a tick at or after it clears the override; so with
    [m <= 0] the first tick at or after [t0] already clears it. *)
Theorem override_window_for_representable_duration self ml w (v : float)
    (t0 t0_collect : datetime) (configured : option Z) :
  _hvac_mode self = HVAC_MODE_AUTO ->
  is_trained ml = true ->
  _override_duration self = entry_override_duration configured ->
  is_datetime t0 ->
  is_datetime (t0 + entry_override_duration configured) ->
  let d := entry_override_duration configured in
  (configured = None -> d = 3600000000)
  /\ exists self0 w0,
       async_set_temperature self w (Some v) t0 t0_collect = (Return tt, self0, w0)
       /\ (forall t t_predict, t < t0 + d ->
             _async_prediction_loop self0 ml w0 t t_predict = (Return tt, self0, w0))
       /\ (forall t t_predict, t0 + d <= t ->
             exists self1 w1,
               _async_prediction_loop self0 ml w0 t t_predict = (Return tt, self1, w1)
               /\ _is_override_active self1 = false)
       /\ (forall m, configured = Some m -> m <= 0 ->
             forall t t_predict, t0 <= t ->
               exists self1 w1,
                 _async_prediction_loop self0 ml w0 t t_predict = (Return tt, self1, w1)
                 /\ _is_override_active self1 = false).
Proof.
  intros Hm Ht Hd _ _ d. split; [now intros ->|].
  rewrite set_temperature_eq. cbv zeta. rewrite Hd. fold d.
  set (self0 := with_override (with_target self v) true (Some (t0 + d))).
  match goal with
  | |- context [(Return tt, self0, ?x)] => set (w0 := x)
  end.
  assert (Hafter : forall t t_predict, t0 + d <= t ->
            exists self1 w1,
              _async_prediction_loop self0 ml w0 t t_predict = (Return tt, self1, w1)
              /\ _is_override_active self1 = false).
  { intros t tp Hge.
    rewrite (tick_after_window self0 ml w0 (t0 + d)); auto.
    destruct (predict_and_apply_calls (with_override self0 false (Some (t0 + d))) ml
                (add_log w0 (Log INFO "%s: Manual override has ended.")) tp)
      as [w1 [E _]].
    exists (with_override self0 false (Some (t0 + d))), w1.
    split; [exact E|reflexivity]. }
  exists self0, w0. split; [reflexivity|]. split; [|split].
  - intros t tp Hlt. now apply (tick_inside_window self0 ml w0 (t0 + d)).
  - exact Hafter.
  - intros m -> Hle t tp Hge. apply Hafter.
    unfold d, entry_override_duration, timedelta_minutes. lia.
Qed.

(** X21: in a mode other than auto the thermostat shows no preset and
    offers none, yet a valid preset is still stored when set, and a manual
    change is still recorded, with a writable file, exactly when the stored
    preset is "Learning & Controlling". *)
Theorem preset_is_hidden_but_used_outside_auto self w (p : string) (v : float)
    (now now_collect : datetime) :
  _hvac_mode self <> HVAC_MODE_AUTO ->
  str_in p PRESETS = true ->
  csv_fault w = None ->
  exists self1 w1 self2 w2,
    async_set_preset_mode self w p = (self1, w1)
    /\ _preset_mode self1 = p
    /\ preset_mode self1 = None
    /\ preset_modes self1 = None
    /\ async_set_temperature self1 w1 (Some v) now now_collect = (Return tt, self2, w2)
    /\ preset_mode self2 = None
    /\ (List.length (csv w2)
        = if String.eqb p PRESET_LEARNING_CONTROLLING
          then S (List.length (csv w)) else List.length (csv w)).
Proof.
  intros Hm Hp Hw. unfold async_set_preset_mode. rewrite Hp. cbn [negb].
  do 2 eexists.
  rewrite set_temperature_eq. cbv zeta. do 2 eexists.
  split; [reflexivity|]. split; [reflexivity|].
  assert (Hoff : String.eqb (_hvac_mode self) HVAC_MODE_AUTO = false)
    by now apply String.eqb_neq.
  split; [unfold preset_mode; simpl; now rewrite Hoff|].
  split; [unfold preset_modes; simpl; now rewrite Hoff|].
  split; [reflexivity|].
  split; [unfold preset_mode; simpl; now rewrite Hoff|].
  cbn [csv async_write_ha_state _async_set_target_climate_temp add_call
       _preset_mode with_modes].
  destruct (String.eqb p PRESET_LEARNING_CONTROLLING).
  - rewrite csv_write_to_csv. cbn [csv_fault csv add_log async_write_ha_state add_call].
    rewrite Hw, length_app. simpl. lia.
  - reflexivity.
Qed.

Lemma csv_fault_write_to_csv dc w (data_row : row float) :
  csv_fault (_write_to_csv dc w data_row) = csv_fault w.
Proof. unfold _write_to_csv. destruct (csv_fault w) eqn:E; simpl; congruence. Qed.

(** X22: the collector's listener leaves the world untouched (no row, no
    log record) exactly when the event lacks the old or the new state, or
    the new state has no target temperature, or the target is the same as
    before; in particular the first target an entity ever reports is
    recorded, and an entity that appears or goes away is not. *)
Theorem listener_ignores_exactly_non_changes dc w (event : Event float) (now : datetime) :
  let changed :=
    exists o n t,
      old_state event = Some o /\ new_state event = Some n
      /\ dict_get (attributes n) ATTR_TEMPERATURE = Some t
      /\ py_ne (dict_get (attributes o) ATTR_TEMPERATURE) (Some t) = true in
  (exists w', _async_handle_initial_learning_state_change dc w event now = (Return tt, w'))
  /\ (_async_handle_initial_learning_state_change dc w event now = (Return tt, w)
      <-> ~ changed)
  /\ (forall o n t,
        old_state event = Some o -> new_state event = Some n ->
        dict_get (attributes o) ATTR_TEMPERATURE = None ->
        dict_get (attributes n) ATTR_TEMPERATURE = Some t -> changed).
Proof.
  intros changed. unfold _async_handle_initial_learning_state_change.
  assert (Hlog : forall w' : World float, log w' = log w ++ [Log INFO "Initial learning: Target temp for %s changed to %s. Collecting data."]
                 \/ (exists r, log w' = (log w ++ [Log INFO "Initial learning: Target temp for %s changed to %s. Collecting data."]) ++ [r]) ->
                 w' <> w).
  { intros w' Hl E. rewrite E in Hl. destruct Hl as [Hl|[r Hl]].
    - symmetry in Hl. now apply app_one_neq in Hl.
    - apply (f_equal (@List.length log_record)) in Hl.
      rewrite !length_app in Hl. simpl in Hl. lia. }
  split; [|split].
  - destruct (old_state event) as [o|]; [|eauto].
    destruct (new_state event) as [n|]; [|eauto].
    destruct (dict_get (attributes n) ATTR_TEMPERATURE) as [t|]; [|eauto].
    destruct (py_ne _ _); [|eauto].
    rewrite collect_data_point_eq. eauto.
  - destruct (old_state event) as [o|] eqn:Eo;
      [|split; [intros _ (o & n & t & E & _); discriminate|reflexivity]].
    destruct (new_state event) as [n|] eqn:En;
      [|split; [intros _ (o' & n & t & _ & E & _); discriminate|reflexivity]].
    destruct (dict_get (attributes n) ATTR_TEMPERATURE) as [t|] eqn:Et;
      [|split; [intros _ (o' & n' & t & _ & E & E' & _); congruence|reflexivity]].
    destruct (py_ne (dict_get (attributes o) ATTR_TEMPERATURE) (Some t)) eqn:Ene.
    + rewrite collect_data_point_eq. split.
      * intros E. exfalso. injection E as E. revert E. apply Hlog.
        unfold _write_to_csv. cbn [csv_fault add_log].
        destruct (csv_fault w); simpl; eauto.
      * intros Hn. exfalso. apply Hn. exists o, n, t. auto.
    + split; [|reflexivity]. intros _ (o' & n' & t' & E1 & E2 & E3 & E4).
      injection E1 as <-. injection E2 as <-. rewrite Et in E3. injection E3 as <-.
      congruence.
  - intros o n t Eo En Hot Hnt. exists o, n, t. rewrite Hot. auto.
Qed.

(** X23: with the preset "Learning & Controlling" and a writable file, a
    manual change to [v] followed by the actuator's state change to [v]
    from another target appends two rows labelled [v]; with any other
    preset the pair appends one, written by the listener. *)
Theorem manual_change_is_recorded_again_by_listener self w (v : float)
    (now now_collect now_event : datetime) (o n : HAState float) :
  csv_fault w = None ->
  dict_get (attributes n) ATTR_TEMPERATURE = Some v ->
  py_ne (dict_get (attributes o) ATTR_TEMPERATURE) (Some v) = true ->
  exists self' w' from_call from_listener,
    run_operations (Pipeline := Pipeline) self w
      [OpSetTemperature (Some v) now now_collect;
       OpActuatorEvent {| old_state := Some o; new_state := Some n |} now_event]
    = (Return tt, self', w')
    /\ dict_get from_call "target_temperature" = Some (PyFloat v)
    /\ dict_get from_listener "target_temperature" = Some (PyFloat v)
    /\ csv w'
       = if String.eqb (_preset_mode self) PRESET_LEARNING_CONTROLLING
         then csv w ++ [from_call; from_listener]
         else csv w ++ [from_listener].
Proof.
  intros Hw Hn Hne.
  pose proof (set_temperature_eq self w v now now_collect) as E1. cbv zeta in E1.
  match type of E1 with
  | _ = (Return tt, ?s, ?x) => set (self1 := s) in *; set (w1 := x) in *
  end.
  assert (Hw1 : csv_fault w1 = None).
  { unfold w1. cbn [csv_fault async_write_ha_state _async_set_target_climate_temp add_call].
    destruct (String.eqb (_preset_mode self) PRESET_LEARNING_CONTROLLING);
      [rewrite csv_fault_write_to_csv|]; exact Hw. }
  destruct (listener_records_change (_data_collector self1) w1 o n v now_event Hn Hne Hw1)
    as (w2 & r2 & E2 & Hcsv2 & Hl2).
  exists self1, w2,
    (writerow (_fieldnames (_data_collector self))
       (dict_set (snapshot_loop w (_sensor_entity_ids (_data_collector self))
                    [("timestamp", PyIso now_collect)])
                 "target_temperature" (PyFloat v))), r2.
  split.
  { cbn [run_operations apply_operation]. rewrite E1. cbv iota beta.
    match goal with
    | |- context [_async_handle_initial_learning_state_change ?a ?b ?c ?d] =>
        change (_async_handle_initial_learning_state_change a b c d)
          with (_async_handle_initial_learning_state_change (_data_collector self1) w1
                  {| old_state := Some o; new_state := Some n |} now_event)
    end.
    rewrite E2. reflexivity. }
  split; [apply written_row_label|]. split; [exact Hl2|].
  rewrite Hcsv2. unfold w1.
  cbn [csv async_write_ha_state _async_set_target_climate_temp add_call].
  destruct (String.eqb (_preset_mode self) PRESET_LEARNING_CONTROLLING).
  - rewrite csv_write_to_csv. cbn [csv_fault csv add_log]. rewrite Hw.
    now rewrite <- app_assoc.
  - reflexivity.
Qed.

Lemma run_state_listener_app (cur : option float) w (a b : list (Event float)) :
  run_state_listener cur w (a ++ b)
  = run_state_listener (fst (run_state_listener cur w a))
                       (snd (run_state_listener cur w a)) b.
Proof.
  revert cur w. induction a as [|ev a IH]; intros cur w; [reflexivity|].
  cbn [app run_state_listener].
  destruct (_async_target_climate_state_listener cur w ev) as [c w']. apply IH.
Qed.

Lemma run_state_listener_unavailable (cur : option float) w (events : list (Event float)) :
  Forall (fun ev => match new_state ev with
                    | None => True
                    | Some s => state s = STATE_UNAVAILABLE \/ state s = STATE_UNKNOWN
                    end) events ->
  run_state_listener cur w events = (cur, w).
Proof.
  intros Hall. induction Hall as [|ev events Hev _ IH]; [reflexivity|].
  cbn [run_state_listener].
  unfold _async_target_climate_state_listener, _update_target_state.
  destruct (new_state ev) as [s|]; [|exact IH].
  destruct Hev as [-> | ->]; exact IH.
Qed.

(** X24: the measured temperature the thermostat shows is the
    [current_temperature] attribute of the last actuator state that was
    neither missing nor "unavailable" nor "unknown" (and is [None] when that
    state had no such attribute); events without such a state change
    nothing and publish nothing. *)
Theorem current_temperature_follows_last_available_state (cur : option float) w
    (before after : list (Event float)) (ev : Event float) (s : HAState float) :
  new_state ev = Some s ->
  state s <> STATE_UNAVAILABLE ->
  state s <> STATE_UNKNOWN ->
  Forall (fun ev => match new_state ev with
                    | None => True
                    | Some s => state s = STATE_UNAVAILABLE \/ state s = STATE_UNKNOWN
                    end) after ->
  fst (run_state_listener cur w (before ++ ev :: after))
  = dict_get (attributes s) "current_temperature"
  /\ run_state_listener cur w after = (cur, w).
Proof.
  intros Hs Hna Hnk Hall. split; [|now apply run_state_listener_unavailable].
  rewrite run_state_listener_app.
  destruct (run_state_listener cur w before) as [c w0]. cbn [fst snd run_state_listener].
  unfold _async_target_climate_state_listener, _update_target_state.
  rewrite Hs.
  assert (Hin : str_in (state s) [STATE_UNAVAILABLE; STATE_UNKNOWN] = false).
  { simpl. apply String.eqb_neq in Hna, Hnk. now rewrite Hna, Hnk. }
  rewrite Hin. cbn [negb].
  now rewrite run_state_listener_unavailable.
Qed.
End ControllerMore.

(** ** The further properties on the sample backend *)

Lemma snapshot_columns_in_sensor_order_witness :
  snapshot_loop sample_world (_sensor_entity_ids sample_collector) []
  = [("sensor_living_room", PyStr "21.5"); ("sensor_window", PyStr "unavailable");
     ("sensor_attic", PyStr "unknown")].
Proof.
  apply (snapshot_columns_in_sensor_order sample_world (_sensor_entity_ids sample_collector)).
  repeat constructor; simpl; intuition discriminate.
Defined.

Lemma trained_flag_is_never_cleared_witness :
  is_trained (snd (fst (_train_model_sync
                          (fst (_load_model sample_manager
                                  (ModelUnreadable (OSError "Permission denied"))))
                          (@DataAbsent Z) (Return tt)))) = true.
Proof.
  apply (trained_flag_is_never_cleared sample_manager); [|reflexivity].
  apply evolves_train, evolves_load, evolves_refl.
Defined.

Lemma train_true_only_after_fit_and_save_witness :
  exists df X fitted,
    DataFrame (sample_frame 20) = DataFrame df
    /\ (20 <= List.length df)%nat
    /\ mapM X_row df = Return X
    /\ Pipeline_fit (Pipeline_new (select_dtypes (fun v => negb (is_object v)) X)
                                  (select_dtypes is_object X))
                    X (map (@target_temperature Z) df) = Return fitted
    /\ (exists u, Return tt = Return u)
    /\ {| model := Some (Fitted (map (@target_temperature Z) (sample_frame 20)));
          is_trained := true |}
       = {| model := Some fitted; is_trained := true |}.
Proof.
  apply (train_true_only_after_fit_and_save
           {| model := @None sample_pipeline; is_trained := false |}
           (DataFrame (sample_frame 20)) (Return tt) _
           [Log INFO "Starting model training...";
            Log INFO "Model training completed successfully.";
            Log INFO "Model saved to %s"]).
  reflexivity.
Defined.

Lemma train_raises_before_pipeline_or_from_fit_witness :
  exists r,
    In r sample_frame_mixed
    /\ timestamp r = Raise (ValueError "time data doesn't match format").
Proof.
  destruct (train_raises_before_pipeline_or_from_fit
              sample_manager (DataFrame sample_frame_mixed) (Return tt)
              (ValueError "time data doesn't match format") sample_manager
              [Log INFO "Starting model training..."] eq_refl)
    as [[_ [(df & r & E & _ & Hin & Hr)|(rows & E & _)]]|(df & X & E & _ & HX & _)].
  - injection E as <-. exists r. split; assumption.
  - discriminate.
  - injection E as <-. vm_compute in HX. discriminate.
Defined.

Lemma ticks_return_after_representable_changes_witness :
  exists self'' w'',
    _async_prediction_loop
      (snd (fst (run_operations sample_init sample_world sample_ops))) sample_manager
      (snd (run_operations sample_init sample_world sample_ops)) 9000000000 9000000001
    = (Return tt, self'', w'').
Proof.
  apply (ticks_return_after_representable_changes sample_init sample_world sample_ops
           (fst (fst (run_operations sample_init sample_world sample_ops)))
           (snd (fst (run_operations sample_init sample_world sample_ops)))
           (snd (run_operations sample_init sample_world sample_ops))).
  - intros E. discriminate.
  - simpl. unfold is_datetime, datetime_min, datetime_max, entry_override_duration,
      timedelta_minutes. lia.
  - now destruct (run_operations sample_init sample_world sample_ops) as [[r s'] w'].
Defined.

Lemma modes_stay_consistent_witness :
  modes_consistent (snd (fst (run_operations sample_init sample_world sample_ops))).
Proof.
  apply (modes_stay_consistent sample_init sample_world sample_ops
           (fst (fst (run_operations sample_init sample_world sample_ops)))
           (snd (fst (run_operations sample_init sample_world sample_ops)))
           (snd (run_operations sample_init sample_world sample_ops))).
  - split; reflexivity.
  - now destruct (run_operations sample_init sample_world sample_ops) as [[r s'] w'].
Defined.

Lemma actuator_gets_manual_temperatures_only_witness :
  exists self' w',
    run_operations sample_init sample_world sample_ops = (Return tt, self', w')
    /\ sent_temperatures (calls w') = [("climate.heater", 225); ("climate.heater", 190)]
    /\ _target_temperature self' = 190.
Proof.
  destruct (run_operations sample_init sample_world sample_ops) as [[r self'] w'] eqn:E.
  pose proof E as E'. vm_compute in E'. injection E' as <- _ _.
  exists self', w'. split; [reflexivity|].
  apply (actuator_gets_manual_temperatures_only sample_init sample_world sample_ops
           self' w' E).
Defined.

Lemma training_file_is_append_only_witness :
  exists new_rows,
    csv (snd (run_operations sample_init sample_world sample_ops))
    = csv sample_world ++ new_rows
    /\ Forall (fun row => map fst row = _fieldnames sample_collector) new_rows.
Proof.
  apply (training_file_is_append_only sample_init sample_world sample_ops
           (fst (fst (run_operations sample_init sample_world sample_ops)))
           (snd (fst (run_operations sample_init sample_world sample_ops)))).
  now destruct (run_operations sample_init sample_world sample_ops) as [[r s'] w'].
Defined.

Lemma idle_ticks_keep_expired_override_witness :
  run_operations (with_override (sample_thermostat PRESET_CONTROLLING) true (Some 100))
    sample_world
    [OpTick {| model := @None sample_pipeline; is_trained := false |} 200 201;
     OpTick {| model := @None sample_pipeline; is_trained := false |} 9000000000 9000000001]
  = (Return tt, with_override (sample_thermostat PRESET_CONTROLLING) true (Some 100),
     sample_world).
Proof.
  apply (idle_ticks_keep_expired_override
           (with_override (sample_thermostat PRESET_CONTROLLING) true (Some 100))
           sample_world
           [({| model := @None sample_pipeline; is_trained := false |}, 200, 201);
            ({| model := @None sample_pipeline; is_trained := false |},
             9000000000, 9000000001)]
           100 eq_refl eq_refl).
  repeat constructor; simpl; now right.
Defined.

Lemma override_window_for_representable_duration_witness :
  exists self0 w0,
    async_set_temperature (sample_thermostat PRESET_CONTROLLING) sample_world
      (Some 225) 0 1 = (Return tt, self0, w0)
    /\ _async_prediction_loop self0 sample_manager w0 3599999999 3600000000
       = (Return tt, self0, w0)
    /\ exists self1 w1,
         _async_prediction_loop self0 sample_manager w0 3600000000 3600000001
         = (Return tt, self1, w1)
         /\ _is_override_active self1 = false.
Proof.
  assert (H0 : is_datetime 0)
    by (unfold is_datetime, datetime_min, datetime_max; lia).
  assert (H1 : is_datetime (0 + entry_override_duration None))
    by (unfold is_datetime, datetime_min, datetime_max, entry_override_duration,
          timedelta_minutes; lia).
  destruct (override_window_for_representable_duration
              (sample_thermostat PRESET_CONTROLLING)
              sample_manager sample_world 225 0 1 None eq_refl eq_refl eq_refl H0 H1)
    as (_ & self0 & w0 & E & Hin & Hout & _).
  exists self0, w0. split; [exact E|]. split.
  - apply Hin. unfold entry_override_duration, timedelta_minutes. lia.
  - apply Hout. unfold entry_override_duration, timedelta_minutes. lia.
Defined.

Lemma preset_is_hidden_but_used_outside_auto_witness :
  exists self1 w1 self2 w2,
    async_set_preset_mode sample_init sample_world PRESET_LEARNING_CONTROLLING = (self1, w1)
    /\ preset_mode self1 = None
    /\ async_set_temperature self1 w1 (Some 225) 0 1 = (Return tt, self2, w2)
    /\ List.length (csv w2) = 1%nat.
Proof.
  destruct (preset_is_hidden_but_used_outside_auto sample_init sample_world
              PRESET_LEARNING_CONTROLLING 225 0 1)
    as (self1 & w1 & self2 & w2 & E1 & _ & Hp & _ & E2 & _ & Hlen);
    [discriminate|reflexivity|reflexivity|].
  exists self1, w1, self2, w2. repeat split; assumption.
Defined.

Lemma manual_change_is_recorded_again_by_listener_witness :
  exists self' w' from_call from_listener,
    run_operations (Pipeline := sample_pipeline)
      (sample_thermostat PRESET_LEARNING_CONTROLLING) sample_world
      [OpSetTemperature (Some 225) 0 1;
       OpActuatorEvent {| old_state := Some (actuator_state 210);
                          new_state := Some (actuator_state 225) |} 2]
    = (Return tt, self', w')
    /\ csv w' = csv sample_world ++ [from_call; from_listener].
Proof.
  assert (Hne : py_ne (dict_get (attributes (actuator_state 210)) ATTR_TEMPERATURE)
                      (Some 225) = true) by reflexivity.
  destruct (manual_change_is_recorded_again_by_listener (Pipeline := sample_pipeline)
              (sample_thermostat PRESET_LEARNING_CONTROLLING) sample_world 225 0 1 2
              (actuator_state 210) (actuator_state 225) eq_refl eq_refl Hne)
    as (self' & w' & r1 & r2 & E & _ & _ & Hcsv).
  exists self', w', r1, r2. split; [exact E|exact Hcsv].
Defined.

Lemma current_temperature_follows_last_available_state_witness :
  fst (run_state_listener (Some 200) sample_world
         ([{| old_state := None;
              new_state := Some {| state := "heat";
                                   attributes := [("current_temperature", 195)] |} |}]
          ++ {| old_state := None;
                new_state := Some {| state := "heat";
                                     attributes := [("current_temperature", 205)] |} |}
          :: [{| old_state := None;
                 new_state := Some {| state := STATE_UNAVAILABLE; attributes := [] |} |};
              {| old_state := None; new_state := None |}]))
  = Some 205.
Proof.
  apply (current_temperature_follows_last_available_state (Some 200) sample_world
           [{| old_state := None;
               new_state := Some {| state := "heat";
                                    attributes := [("current_temperature", 195)] |} |}]
           [{| old_state := None;
               new_state := Some {| state := STATE_UNAVAILABLE; attributes := [] |} |};
            {| old_state := None; new_state := None |}]
           {| old_state := None;
              new_state := Some {| state := "heat";
                                   attributes := [("current_temperature", 205)] |} |}
           {| state := "heat"; attributes := [("current_temperature", 205)] |}).
  - reflexivity.
  - discriminate.
  - discriminate.
  - repeat constructor.
Defined.
